(** * FunctionAppService: deployment orchestration of a function app

    A shallow embedding of [FunctionAppService] (the service that lists,
    deletes, uploads and inspects the functions of a function app) together
    with the properties its specification states about it.

    The service is asynchronous JavaScript talking to remote collaborators.
    It is embedded as explicit state passing: every method is a function
    from a [World] (the answers of the collaborators) and a [State] (a call
    counter, the one mutable closure variable of the service and the trace
    of observable events) to an [Outcome] and a new state. *)

From Stdlib Require Import ZArith Lia.
From stdpp Require Import gmap strings list pretty.

Local Open Scope string_scope.
Local Open Scope list_scope.

(** ** Strings as JavaScript uses them *)

(** [hay.includes(needle)] *)
Fixpoint includes (needle hay : string) : bool :=
  String.prefix needle hay
  || match hay with
     | EmptyString => false
     | String _ rest => includes needle rest
     end.

(** [s.endsWith(suffix)] *)
Definition endsWith (suffix s : string) : bool :=
  let n := String.length s in
  let m := String.length suffix in
  (m <=? n)%nat && String.eqb (String.substring (n - m) m s) suffix.

(** [c.toUpperCase()] on one code unit; only the ASCII letters are mapped,
    every other byte is kept. *)
Definition upper_ascii (c : Ascii.ascii) : Ascii.ascii :=
  let n := Ascii.nat_of_ascii c in
  if ((97 <=? n) && (n <=? 122))%nat then Ascii.ascii_of_nat (n - 32) else c.

Fixpoint toUpperCase (s : string) : string :=
  match s with
  | EmptyString => EmptyString
  | String c rest => String (upper_ascii c) (toUpperCase rest)
  end.

(** A string is falsy exactly when it is empty; [undefined] is [None]. *)
Definition truthy (o : option string) : option string :=
  match o with
  | Some s => if String.eqb s "" then None else Some s
  | None => None
  end.

(** [a || b] on a possibly absent string with a string fallback. *)
Definition or_string (a : option string) (b : string) : string :=
  match truthy a with
  | Some s => s
  | None => b
  end.

(** ** Data model *)

(** One binding descriptor of a deployed function. *)
Record Binding := {
  binding_type : string;
  binding_route : option string;
  binding_methods : option (list string);
  binding_authLevel : option string;
}.

(** [FunctionEnvelope]: a deployed function, with [config.bindings]. *)
Record FunctionEnvelope := {
  fn_name : string;
  fn_bindings : list Binding;
}.

(** [Site]: the function app. *)
Record Site := {
  site_id : string;
  site_name : string;
  defaultHostName : string;
  enabledHostNames : list string;
}.

(** [FunctionAppHttpTriggerConfig] *)
Record FunctionAppHttpTriggerConfig := {
  authLevel : option string;
  methods : list string;
  url : string;
  route : option string;
  name : string;
}.

(** The [properties] member of a response body: a function's configuration
    or an application-settings map. *)
Inductive Properties :=
| FunctionProperties (f : FunctionEnvelope)
| SettingsProperties (m : gmap string string).

(** The [data] of an API response, as far as the service looks into it. *)
Inductive ResponseData :=
| NoData
| Listing (value : list FunctionEnvelope)
| Document (properties : option Properties).

Record ApiResponse := {
  status : Z;
  data : ResponseData;
}.

(** The [data] option passed to [sendApiRequest]. *)
Inductive Payload :=
| NoPayload
| PropertiesPayload (properties : option Properties).

(** Response of [webApps.get]: the site, or a body carrying [error.code]. *)
Record SiteResponse := {
  error_code : option string;
  site : Site;
}.

(** Response of [webApps.listApplicationSettings]. *)
Record StringDictionary := {
  settings : option (gmap string string);
}.

(** ** Exceptions *)

Inductive ErrorKind :=
| PreconditionViolation
| ProvisioningNotReady
| TransportFailure
| LocalArtifactMissing
| RuntimeFault.

Record Exn := {
  kind : ErrorKind;
  message : string;
}.

(** [`${err}`] *)
Definition toString (e : Exn) : string :=
  match kind e with
  | RuntimeFault => "TypeError: " +:+ message e
  | _ => "Error: " +:+ message e
  end.

Inductive Outcome (A : Type) :=
| Return (a : A)
| Throw (e : Exn).
Arguments Return {A} a.
Arguments Throw {A} e.

(** ** Observable events *)

Inductive Event :=
| Log (msg : string)
| ApiRequest (method uri : string) (body : Payload)
| WebAppsGet (resourceGroup resource : string)
| ListApplicationSettings (resourceGroup app : string)
| BlobInitialize
| BlobCreateContainer (container : string)
| BlobUploadFile (path container blob : string)
| BlobGenerateSas (container blob : string)
| GetAccessToken
| SendFile (uri authorization path : string)
| ExistsSync (path : string)
| Wait (ms : Z).

(** ** The collaborators

    Each remote call is answered by the world as a function of the number
    of calls answered so far and of the request. *)
Record World := {
  w_sendApiRequest : nat -> string -> string -> Payload -> Outcome ApiResponse;
  w_webAppsGet : nat -> string -> string -> Outcome SiteResponse;
  w_listApplicationSettings : nat -> string -> string -> Outcome StringDictionary;
  w_blobInitialize : nat -> Outcome unit;
  w_blobCreateContainer : nat -> string -> Outcome unit;
  w_blobUploadFile : nat -> string -> string -> string -> Outcome unit;
  w_blobGenerateSas : nat -> string -> string -> Outcome string;
  w_getAccessToken : nat -> Outcome string;
  w_sendFile : nat -> string -> string -> string -> Outcome unit;
  w_existsSync : string -> bool;
}.

Record State := {
  tick : nat;
  retries : nat;
  trace : list Event;
}.

Definition initial : State := {| tick := 0; retries := 0; trace := [] |}.

(** ** The monad of the service *)

Definition M (A : Type) : Type := World -> State -> Outcome A * State.

Definition ret {A} (a : A) : M A := fun _ s => (Return a, s).

Definition throw {A} (e : Exn) : M A := fun _ s => (Throw e, s).

Definition bind {A B} (m : M A) (k : A -> M B) : M B :=
  fun w s =>
    match m w s with
    | (Return a, s') => k a w s'
    | (Throw e, s') => (Throw e, s')
    end.

(** [try { m } catch (e) { h e }] *)
Definition try_catch {A} (m : M A) (h : Exn -> M A) : M A :=
  fun w s =>
    match m w s with
    | (Return a, s') => (Return a, s')
    | (Throw e, s') => h e w s'
    end.

(** Calling an async function without awaiting it: the call is made and its
    settlement is kept as a value. *)
Definition settle {A} (m : M A) : M (Outcome A) :=
  fun w s => let (r, s') := m w s in (Return r, s').

Notation "'do' x <- m ; k" := (bind m (fun x => k))
  (at level 10, x name, m at level 100, k at level 200, only parsing).

Definition emit (e : Event) : M unit :=
  fun _ s => (Return tt, {| tick := tick s; retries := retries s; trace := trace s ++ [e] |}).

(** A remote call: the event is recorded, the world answers, the call
    counter advances. *)
Definition remote {A} (e : Event) (answer : World -> nat -> Outcome A) : M A :=
  fun w s =>
    (answer w (tick s),
     {| tick := S (tick s); retries := retries s; trace := trace s ++ [e] |}).

Definition log (msg : string) : M unit := emit (Log msg).

Definition sendApiRequest (method uri : string) (body : Payload) : M ApiResponse :=
  remote (ApiRequest method uri body) (fun w n => w_sendApiRequest w n method uri body).

Definition existsSync (path : string) : M bool :=
  fun w s =>
    (Return (w_existsSync w path),
     {| tick := tick s; retries := retries s; trace := trace s ++ [ExistsSync path] |}).

(** [Utils.wait] *)
Definition wait (ms : Z) : M unit := emit (Wait ms).

Definition get_retries : M nat := fun _ s => (Return (retries s), s).
Definition set_retries (n : nat) : M unit :=
  fun _ s => (Return tt, {| tick := tick s; retries := n; trace := trace s |}).

(** Property access on a value that may be [null]. *)
Definition deref {A} (value : option A) : M A :=
  match value with
  | Some a => ret a
  | None => throw {| kind := RuntimeFault; message := "Cannot read properties of null" |}
  end.

(** [Promise.all]: every promise was already started; the aggregate fulfils
    with all the values or rejects with a rejection among them (here the
    first one in list order). *)
Fixpoint promise_all {A} (tasks : list (Outcome A)) : M (list A) :=
  match tasks with
  | [] => ret []
  | Return a :: rest => do vs <- promise_all rest; ret (a :: vs)
  | Throw e :: _ => throw e
  end.

(** [xs.includes(x)] on an array of strings. *)
Definition array_includes (xs : list string) (x : string) : bool :=
  existsb (String.eqb x) xs.

(** ** Helpers of the repository that the service calls *)

Module Guard.

(** Modelled from the spec: [Guard.null] of the shared guard module, which
    is not among the sources. A null value is a precondition violation:
    it fails at once, is not retried and not wrapped. *)
Definition null {A} (value : option A) : M unit :=
  match value with
  | Some _ => ret tt
  | None => throw {| kind := PreconditionViolation; message := "Parameter cannot be null" |}
  end.

(** Modelled from the spec: [Guard.empty] of the shared guard module, which
    is not among the sources. An empty name is a precondition violation. *)
Definition empty (value : string) : M unit :=
  if String.eqb value ""
  then throw {| kind := PreconditionViolation; message := "Parameter cannot be empty" |}
  else ret tt.

End Guard.

Module Utils.

(** Modelled from the spec: the poller of the shared utilities is not among
    the sources. Its retryable signal is the "not ready" failure; every other
    failure is not retryable. *)
Definition retryable (e : Exn) : bool :=
  match kind e with
  | ProvisioningNotReady => true
  | _ => false
  end.

(** Modelled from the spec: the loop of the poller, which is not among the
    sources; [last] is the failure of the previous attempt. *)
Fixpoint retry_loop {A} (probe : M A) (attempts : nat) (interval : Z) (last : Exn) : M A :=
  match attempts with
  | O => throw last
  | S n =>
      try_catch probe (fun e =>
        if retryable e
        then do _ <- wait interval; retry_loop probe n interval e
        else throw e)
  end.

(** Modelled from the spec: [Utils.runWithRetry] of the shared utilities,
    which is not among the sources. The probe is invoked up to
    [maxRetries] times; a returned value is the result; on the retryable
    signal the poller sleeps the fixed delay and invokes the probe again;
    when the attempts are exhausted the last failure is surfaced; any other
    failure is propagated at once. The delay follows every retryable
    failure (30 attempts of 30 seconds make the 15 minute budget). *)
Definition runWithRetry {A} (probe : M A) (maxRetries : nat) (retryWaitInterval : Z) : M A :=
  retry_loop probe maxRetries retryWaitInterval
    {| kind := ProvisioningNotReady; message := "" |}.

End Utils.

(** ** The service *)

(** The fields of [this] that the methods read. [resourceName] stands for
    [FunctionAppResource.getResourceName(this.config)], [conventionalZip] for
    the [path.join] of the service path, [".serverless"] and the zip name. *)
Record Service := {
  baseUrl : string;
  subscriptionId : string;
  resourceGroup : string;
  resourceName : string;
  deployment_external : bool;
  deployment_container : string;
  artifactName : string;
  option_package : option string;
  service_artifact : option string;
  conventionalZip : string;
  allFunctions : list string;
  runFromPackageSetting : string;
  stringify : ResponseData -> string;
  stringifySite : SiteResponse -> string;
}.

Definition retryCount : nat := 30.
Definition retryInterval : Z := 30000.

Definition newline : string := String (Ascii.ascii_of_nat 10) EmptyString.

Section FunctionAppService.

Variable this : Service.

Definition get : M (option SiteResponse) :=
  do response <- remote (WebAppsGet (resourceGroup this) (resourceName this))
                   (fun w n => w_webAppsGet w n (resourceGroup this) (resourceName this));
  match error_code response with
  | Some code =>
      if String.eqb code "ResourceNotFound" || String.eqb code "ResourceGroupNotFound"
      then
        do _ <- log (resourceGroup this);
        do _ <- log (resourceName this);
        do _ <- log (stringifySite this response);
        ret None
      else ret (Some response)
  | None => ret (Some response)
  end.

Definition deleteFunctionUrl (functionApp : Site) (functionName : string) : string :=
  baseUrl this +:+ site_id functionApp +:+ "/functions/" +:+ functionName
    +:+ "?api-version=2016-08-01".

Definition deleteFunction (functionApp : option Site) (functionName : string)
  : M ApiResponse :=
  do _ <- Guard.null functionApp;
  do _ <- Guard.empty functionName;
  do _ <- log ("-> Deleting function: " +:+ functionName);
  do app <- deref functionApp;
  sendApiRequest "DELETE" (deleteFunctionUrl app functionName) NoPayload.

Definition syncTriggersUrl (functionApp : Site) : string :=
  baseUrl this +:+ "/subscriptions/" +:+ subscriptionId this
    +:+ "/resourceGroups/" +:+ resourceGroup this
    +:+ "/providers/Microsoft.Web/sites/" +:+ site_name functionApp
    +:+ "/syncfunctiontriggers?api-version=2016-08-01".

Definition syncTriggers (functionApp : option Site) (properties : option Properties)
  : M ApiResponse :=
  do _ <- Guard.null functionApp;
  do _ <- log "Syncing function triggers";
  do app <- deref functionApp;
  try_catch
    (sendApiRequest "POST" (syncTriggersUrl app) (PropertiesPayload properties))
    (fun err =>
       throw {| kind := TransportFailure;
                message := "Error syncing function app triggers: " +:+ toString err |}).

Definition listFunctionsUrl (functionApp : Site) : string :=
  baseUrl this +:+ site_id functionApp +:+ "/functions?api-version=2016-08-01".

Definition notReadyMessage (response : string) : string :=
  "The function app is taking longer than usual to be provisioned. Please try again soon."
    +:+ newline +:+ "            Response error data: " +:+ newline +:+ response.

(** The "not ready" failure of the listing probe. *)
Definition notReady (body : ResponseData) : Exn :=
  {| kind := ProvisioningNotReady; message := notReadyMessage (stringify this body) |}.

Definition retryLogMessage (n : nat) : string :=
  "-> Function App not ready. Retry " +:+ pretty n +:+ " of " +:+ pretty retryCount +:+ "...".

(** The probe of [listFunctions]: one GET of the listing endpoint. *)
Definition listFunctionsProbe (getTokenUrl : string) : M ApiResponse :=
  do listFunctionsResponse <- sendApiRequest "GET" getTokenUrl NoPayload;
  let notReadyYet :=
    do n <- get_retries;
    do _ <- set_retries (S n);
    do _ <- log (retryLogMessage n);
    throw (notReady (data listFunctionsResponse)) in
  if negb (status listFunctionsResponse =? 200)%Z then notReadyYet
  else
    match data listFunctionsResponse with
    | Listing value =>
        if (length value =? 0)%nat then notReadyYet else ret listFunctionsResponse
    | NoData =>
        throw {| kind := RuntimeFault; message := "Cannot read properties of undefined" |}
    | Document _ =>
        throw {| kind := RuntimeFault; message := "Cannot read properties of undefined" |}
    end.

Definition listFunctions (functionApp : option Site) : M (list FunctionEnvelope) :=
  do _ <- Guard.null functionApp;
  do app <- deref functionApp;
  let getTokenUrl := listFunctionsUrl app in
  do _ <- set_retries 0;
  try_catch
    (do response <- Utils.runWithRetry (listFunctionsProbe getTokenUrl)
                      retryCount retryInterval;
     match data response with
     | Listing value => ret value
     | _ => throw {| kind := RuntimeFault; message := "Cannot read properties of undefined" |}
     end)
    (fun e =>
       do _ <- log "-> Unable to retrieve function app list";
       throw e).

Fixpoint cleanUpTasks (functionApp : option Site) (serviceFunctions : list string)
    (deployedFunctions : list FunctionEnvelope) : M (list (Outcome ApiResponse)) :=
  match deployedFunctions with
  | [] => ret []
  | func :: rest =>
      if array_includes serviceFunctions (fn_name func)
      then
        do task <- settle (deleteFunction functionApp (fn_name func));
        do tasks <- cleanUpTasks functionApp serviceFunctions rest;
        ret (task :: tasks)
      else cleanUpTasks functionApp serviceFunctions rest
  end.

Definition cleanUp (functionApp : option Site) : M (list ApiResponse) :=
  do _ <- Guard.null functionApp;
  do _ <- log "Cleaning up existing functions";
  let serviceFunctions := allFunctions this in
  do deployedFunctions <- listFunctions functionApp;
  do deleteTasks <- cleanUpTasks functionApp serviceFunctions deployedFunctions;
  promise_all deleteTasks.

Definition getFunctionUrl (functionApp : Site) (functionName : string) : string :=
  baseUrl this +:+ site_id functionApp +:+ "/functions/" +:+ functionName
    +:+ "?api-version=2016-08-01".

(** The probe of [getFunction]. On a status other than 200 the source
    builds its error from [response.data], where [response] is the binding
    that the surrounding [runWithRetry] call is still initialising: the
    evaluation of that expression is what throws. *)
Definition getFunctionProbe (getFunctionUrl : string) : M ApiResponse :=
  do getFunctionResponse <- sendApiRequest "GET" getFunctionUrl NoPayload;
  if negb (status getFunctionResponse =? 200)%Z
  then
    do _ <- log "-> Function app not ready. Retrying...";
    throw {| kind := RuntimeFault;
             message := "Cannot access 'response' before initialization" |}
  else ret getFunctionResponse.

Definition getFunction (functionApp : option Site) (functionName : string)
  : M (option Properties) :=
  do _ <- Guard.null functionApp;
  do _ <- Guard.empty functionName;
  do app <- deref functionApp;
  let getFunctionUrl := getFunctionUrl app functionName in
  try_catch
    (do response <- Utils.runWithRetry (getFunctionProbe getFunctionUrl)
                      retryCount retryInterval;
     match data response with
     | NoData =>
         throw {| kind := RuntimeFault; message := "Cannot read properties of undefined" |}
     | Listing _ => ret None
     | Document properties => ret properties
     end)
    (fun _ => ret None).

(** Gets local path of packaged function app *)
Definition getFunctionZipFile : string :=
  match truthy (option_package this) with
  | Some functionZipFile => functionZipFile
  | None => or_string (service_artifact this) (conventionalZip this)
  end.

Definition appSettingsUrl (functionApp : Site) : string :=
  baseUrl this +:+ "/subscriptions/" +:+ subscriptionId this
    +:+ "/resourceGroups/" +:+ resourceGroup this
    +:+ "/providers/Microsoft.Web/sites/" +:+ site_name functionApp
    +:+ "/config/appsettings?api-version=2016-08-01".

Definition updateFunctionAppSetting (functionApp : option Site) (setting value : string)
  : M ResponseData :=
  do app <- deref functionApp;
  do dictionary <- remote (ListApplicationSettings (resourceGroup this) (site_name app))
                     (fun w n => w_listApplicationSettings w n
                                   (resourceGroup this) (site_name app));
  do properties <-
    match settings dictionary with
    | Some properties => ret (<[setting := value]> properties)
    | None =>
        throw {| kind := RuntimeFault; message := "Cannot set properties of undefined" |}
    end;
  try_catch
    (do response <- sendApiRequest "PUT" (appSettingsUrl app)
                      (PropertiesPayload (Some (SettingsProperties properties)));
     ret (data response))
    (fun err =>
       throw {| kind := TransportFailure;
                message := "Failed to update function app settings: " +:+ toString err |}).

(** Uploads artifact file to blob storage container *)
Definition uploadZippedArtifactToBlobStorage (functionZipFile : string) : M unit :=
  do _ <- remote BlobInitialize w_blobInitialize;
  do _ <- remote (BlobCreateContainer (deployment_container this))
            (fun w n => w_blobCreateContainer w n (deployment_container this));
  remote (BlobUploadFile functionZipFile (deployment_container this) (artifactName this))
    (fun w n => w_blobUploadFile w n functionZipFile
                  (deployment_container this) (artifactName this)).

Definition isHttpTrigger (binding : Binding) : bool :=
  String.eqb (binding_type binding) "httpTrigger".

Definition getFunctionHttpTriggerConfig (functionApp : Site)
    (functionConfig : FunctionEnvelope) : option FunctionAppHttpTriggerConfig :=
  match List.find isHttpTrigger (fn_bindings functionConfig) with
  | None => None
  | Some httpTrigger =>
      let route := or_string (binding_route httpTrigger) (fn_name functionConfig) in
      let url := defaultHostName functionApp +:+ "/api/" +:+ route in
      Some {| authLevel := binding_authLevel httpTrigger;
              methods := match binding_methods httpTrigger with
                         | Some methods => methods
                         | None => ["*"]
                         end;
              url := url;
              route := binding_route httpTrigger;
              name := fn_name functionConfig |}
  end.

Definition isScmDomain (hostName : string) : bool :=
  includes ".scm." hostName && endsWith ".azurewebsites.net" hostName.

(** Retrieves the SCM domain from the list of enabled domains within the
    app; [None] is JavaScript's [undefined]. *)
Definition getScmDomain (functionApp : option Site) : M (option string) :=
  do app <- deref functionApp;
  ret (List.find isScmDomain (enabledHostNames app)).

(** [`${value}`] of a possibly undefined string *)
Definition template (value : option string) : string :=
  match value with
  | Some s => s
  | None => "undefined"
  end.

Definition uploadZippedArfifactToFunctionApp (functionApp : option Site)
    (functionZipFile : string) : M unit :=
  do scmDomain <- getScmDomain functionApp;
  do app <- deref functionApp;
  do _ <- log ("Deploying zip file to function app: " +:+ site_name app);
  do found <- (if String.eqb functionZipFile "" then ret false
               else existsSync functionZipFile);
  if negb found
  then throw {| kind := LocalArtifactMissing;
                message := "No zip file found for function app" |}
  else
    do _ <- log ("-> Deploying service package @ " +:+ functionZipFile);
    do token <- remote GetAccessToken w_getAccessToken;
    let uri := "https://" +:+ template scmDomain +:+ "/api/zipdeploy/" in
    let authorization := "Bearer " +:+ token in
    do _ <- remote (SendFile uri authorization functionZipFile)
              (fun w n => w_sendFile w n uri authorization functionZipFile);
    log "-> Function package uploaded successfully".

(** [response.properties] on the data returned by the settings update *)
Definition propertiesOf (response : ResponseData) : M (option Properties) :=
  match response with
  | NoData =>
      throw {| kind := RuntimeFault; message := "Cannot read properties of undefined" |}
  | Listing _ => ret None
  | Document properties => ret properties
  end.

(** The report of the deployed functions that are part of the service. *)
Fixpoint reportFunctions (functionApp : Site) (serverlessFunctions : list string)
    (deployedFunctions : list FunctionEnvelope) : M unit :=
  match deployedFunctions with
  | [] => ret tt
  | functionConfig :: rest =>
      do _ <-
        (if array_includes serverlessFunctions (fn_name functionConfig)
         then
           match getFunctionHttpTriggerConfig functionApp functionConfig with
           | Some httpConfig =>
               match methods httpConfig with
               | first :: _ =>
                   log ("-> " +:+ fn_name functionConfig +:+ ": ["
                          +:+ toUpperCase first +:+ "] " +:+ url httpConfig)
               | [] =>
                   throw {| kind := RuntimeFault;
                            message := "Cannot read properties of undefined" |}
               end
           | None => ret tt
           end
         else ret tt);
      reportFunctions functionApp serverlessFunctions rest
  end.

(** The external-package branch of [uploadFunctions]. *)
Definition uploadExternal (functionApp : option Site) (functionZipFile : string) : M unit :=
  do _ <- log "Updating function app setting to run from external package...";
  do _ <- uploadZippedArtifactToBlobStorage functionZipFile;
  do sasUrl <- remote (BlobGenerateSas (deployment_container this) (artifactName this))
                 (fun w n => w_blobGenerateSas w n
                               (deployment_container this) (artifactName this));
  do response <- updateFunctionAppSetting functionApp (runFromPackageSetting this) sasUrl;
  do properties <- propertiesOf response;
  do _ <- syncTriggers functionApp properties;
  ret tt.

(** The other branch: both uploads are started before either is awaited.
    The embedding runs the archival upload to its end and then the push to
    the function app; the interleaving of their steps is not represented. *)
Definition uploadDirect (functionApp : option Site) (functionZipFile : string) : M unit :=
  do archived <- settle (uploadZippedArtifactToBlobStorage functionZipFile);
  do pushed <- settle (uploadZippedArfifactToFunctionApp functionApp functionZipFile);
  do _ <- promise_all [archived; pushed];
  ret tt.

Definition uploadFunctions (functionApp : option Site) : M unit :=
  do _ <- Guard.null functionApp;
  do _ <- log "Deploying serverless functions...";
  let functionZipFile := getFunctionZipFile in
  do _ <- (if deployment_external this
           then uploadExternal functionApp functionZipFile
           else uploadDirect functionApp functionZipFile);
  do _ <- log "Deployed serverless functions:";
  let serverlessFunctions := allFunctions this in
  do deployedFunctions <- listFunctions functionApp;
  do app <- deref functionApp;
  reportFunctions app serverlessFunctions deployedFunctions.

End FunctionAppService.

(** ** The remaining methods of the service

    The key endpoints answer with bodies of their own shape (a quoted token,
    an object with a [value]), and the file lists come from [glob]; both are
    taken as parameters beside the [World]. *)

(** [s.slice(n)] *)
Fixpoint string_drop (n : nat) (s : string) : string :=
  match n, s with
  | O, _ => s
  | S n', String _ rest => string_drop n' rest
  | S _, EmptyString => EmptyString
  end.

(** [s.replace(pattern, replacement)] for a string pattern and the empty
    replacement: the first occurrence of the pattern is removed. *)
Fixpoint removeFirst (pattern s : string) : string :=
  if String.prefix pattern s then string_drop (String.length pattern) s
  else match s with
       | EmptyString => EmptyString
       | String c rest => String c (removeFirst pattern rest)
       end.

Definition quote : Ascii.ascii := Ascii.ascii_of_nat 34.

(** The global replacement of the double quote by the empty string. *)
Fixpoint removeQuotes (s : string) : string :=
  match s with
  | EmptyString => EmptyString
  | String c rest =>
      if Ascii.eqb c quote then removeQuotes rest else String c (removeQuotes rest)
  end.

(** The answers of [sendApiRequest] at the two key endpoints: the [data] of
    the admin-token response, a string, and the [data.value] of the
    master-key response, given the address and the [Authorization] header. *)
Record KeyEndpoints := {
  adminToken : nat -> string -> Outcome string;
  systemKey : nat -> string -> string -> Outcome (option string);
}.

Section KeysAndSites.

Variable this : Service.
Variable endpoints : KeyEndpoints.

(** The answer of [glob] for a pattern: the files, or its error. *)
Variable glob : string -> Outcome (list string).

Definition adminTokenUrl (functionApp : Site) : string :=
  baseUrl this +:+ site_id functionApp +:+ "/functions/admin/token?api-version=2016-08-01".

(** Gets a short lived admin token used to retrieve function keys *)
Definition getAuthKey (functionApp : option Site) : M string :=
  do app <- deref functionApp;
  do response <- remote (ApiRequest "GET" (adminTokenUrl app) NoPayload)
                   (fun _ n => adminToken endpoints n (adminTokenUrl app));
  ret (removeQuotes response).

Definition keyUrl (functionApp : Site) : string :=
  "https://" +:+ defaultHostName functionApp +:+ "/admin/host/systemkeys/_master".

Definition getMasterKey (functionApp : option Site) : M (option string) :=
  do functionApp <-
    match functionApp with
    | Some app => ret (Some app)
    | None => do response <- get this; ret (site <$> response)
    end;
  do adminToken <- getAuthKey functionApp;
  do app <- deref functionApp;
  remote (ApiRequest "GET" (keyUrl app) NoPayload)
    (fun _ n => systemKey endpoints n (keyUrl app) ("Bearer " +:+ adminToken)).

(** [getFileList]: the promise around [glob]. *)
Definition getFileList (pattern : string) : M (list string) :=
  fun _ s => (glob pattern, s).

(** [files.map(uploadFile)]: every upload is started, in the order of the
    list, its settlement kept; the blob name is the path without the first
    occurrence of [root]. *)
Fixpoint uploadAll (root container : string) (files : list string)
  : M (list (Outcome unit)) :=
  match files with
  | [] => ret []
  | filePath :: rest =>
      let artifactName := removeFirst root filePath in
      do task <- settle (remote (BlobUploadFile filePath container artifactName)
                           (fun w n => w_blobUploadFile w n filePath container artifactName));
      do tasks <- uploadAll root container rest;
      ret (task :: tasks)
  end.

Definition uploadStaticSite : M unit :=
  do _ <- remote BlobInitialize w_blobInitialize;
  do _ <- remote (BlobCreateContainer "$web") (fun w n => w_blobCreateContainer w n "$web");
  do files <- getFileList "./build/**";
  do pArr <- uploadAll "./build/" "$web" files;
  do _ <- promise_all pArr;
  ret tt.

Definition uploadUserConfig : M unit :=
  do _ <- remote BlobInitialize w_blobInitialize;
  do _ <- remote (BlobCreateContainer "user-config")
            (fun w n => w_blobCreateContainer w n "user-config");
  do files <- getFileList "./user_config/**";
  do pArr <- uploadAll "./user_config/" "user-config" files;
  do _ <- promise_all pArr;
  ret tt.

End KeysAndSites.

(** ** Sample inputs *)

Module Sample.

Definition service : Service := {|
  baseUrl := "https://management.azure.com";
  subscriptionId := "sub";
  resourceGroup := "rg";
  resourceName := "svc-app-dev";
  deployment_external := true;
  deployment_container := "deployment-artifacts";
  artifactName := "svc.zip";
  option_package := None;
  service_artifact := None;
  conventionalZip := ".serverless/svc.zip";
  allFunctions := ["a"; "b"];
  runFromPackageSetting := "WEBSITE_RUN_FROM_PACKAGE";
  stringify := fun body =>
    match body with
    | NoData => ""
    | Listing value => "{value:" +:+ pretty (length value) +:+ "}"
    | Document _ => "{}"
    end;
  stringifySite := fun _ => "{}";
|}.

Definition host : Site := {|
  site_id := "/subscriptions/sub/resourceGroups/rg/providers/Microsoft.Web/sites/h";
  site_name := "h";
  defaultHostName := "h.example.net";
  enabledHostNames := ["h.example.net"; "h.scm.azurewebsites.net"];
|}.

Definition deployed (n : string) : FunctionEnvelope :=
  {| fn_name := n; fn_bindings := [] |}.

Definition ok (body : ResponseData) : Outcome ApiResponse :=
  Return {| status := 200; data := body |}.

(** A world in which every collaborator succeeds; [api] answers the
    requests of [sendApiRequest] and [found] is the local file system. *)
Definition world (api : nat -> string -> Outcome ApiResponse) (found : string -> bool)
  : World := {|
  w_sendApiRequest := fun n method _ _ => api n method;
  w_webAppsGet := fun _ _ _ => Return {| error_code := None; site := host |};
  w_listApplicationSettings := fun _ _ _ =>
    Return {| settings := Some {[ "FUNCTIONS_WORKER_RUNTIME" := "node" ]} |};
  w_blobInitialize := fun _ => Return tt;
  w_blobCreateContainer := fun _ _ => Return tt;
  w_blobUploadFile := fun _ _ _ _ => Return tt;
  w_blobGenerateSas := fun _ _ _ => Return "https://storage/svc.zip?sas";
  w_getAccessToken := fun _ => Return "token";
  w_sendFile := fun _ _ _ _ => Return tt;
  w_existsSync := found;
|}.

(** The listing endpoint shows [a], [b] and [c] at once. *)
Definition converged : World :=
  world (fun _ _ => ok (Listing [deployed "a"; deployed "b"; deployed "c"]))
        (fun _ => true).

(** The listing endpoint is empty for two attempts, then shows [a]. *)
Definition converging : World :=
  world (fun n _ => if (n <? 2)%nat then ok (Listing []) else ok (Listing [deployed "a"]))
        (fun _ => true).

(** The listing endpoint stays empty. *)
Definition stuck : World :=
  world (fun _ _ => ok (Listing [])) (fun _ => true).

(** The resource group does not exist. *)
Definition unprovisioned : World := {|
  w_sendApiRequest := w_sendApiRequest stuck;
  w_webAppsGet := fun _ _ _ =>
    Return {| error_code := Some "ResourceGroupNotFound"; site := host |};
  w_listApplicationSettings := w_listApplicationSettings stuck;
  w_blobInitialize := w_blobInitialize stuck;
  w_blobCreateContainer := w_blobCreateContainer stuck;
  w_blobUploadFile := w_blobUploadFile stuck;
  w_blobGenerateSas := w_blobGenerateSas stuck;
  w_getAccessToken := w_getAccessToken stuck;
  w_sendFile := w_sendFile stuck;
  w_existsSync := fun _ => false;
|}.

(** The upload to blob storage is refused. *)
Definition storageDown : World := {|
  w_sendApiRequest := w_sendApiRequest converged;
  w_webAppsGet := w_webAppsGet converged;
  w_listApplicationSettings := w_listApplicationSettings converged;
  w_blobInitialize := w_blobInitialize converged;
  w_blobCreateContainer := w_blobCreateContainer converged;
  w_blobUploadFile := fun _ _ _ _ =>
    Throw {| kind := TransportFailure; message := "upload refused" |};
  w_blobGenerateSas := w_blobGenerateSas converged;
  w_getAccessToken := w_getAccessToken converged;
  w_sendFile := w_sendFile converged;
  w_existsSync := w_existsSync converged;
|}.

Definition widgets : Binding := {|
  binding_type := "httpTrigger";
  binding_route := Some "widgets/{id}";
  binding_methods := Some ["get"; "post"];
  binding_authLevel := Some "function";
|}.

Definition timer : Binding := {|
  binding_type := "timerTrigger";
  binding_route := None;
  binding_methods := None;
  binding_authLevel := None;
|}.

(** An HTTP trigger whose route is the empty string. *)
Definition rootRoute : Binding := {|
  binding_type := "httpTrigger";
  binding_route := Some "";
  binding_methods := None;
  binding_authLevel := Some "anonymous";
|}.

End Sample.

(** ** Properties *)

(** *** Events and traces *)

(** The events that reach a collaborator over the network. *)
Definition is_remote (ev : Event) : bool :=
  match ev with
  | Log _ | ExistsSync _ | Wait _ => false
  | _ => true
  end.

Definition is_existsSync (ev : Event) : bool :=
  match ev with
  | ExistsSync _ => true
  | _ => false
  end.

(** The URIs of the DELETE requests of a trace, in the order of issue. *)
Fixpoint deleteRequests (evs : list Event) : list string :=
  match evs with
  | [] => []
  | ApiRequest method uri _ :: rest =>
      if String.eqb method "DELETE" then uri :: deleteRequests rest
      else deleteRequests rest
  | _ :: rest => deleteRequests rest
  end.

(** The state after the events [evs] were added to the trace. *)
Definition record (s : State) (evs : list Event) : State :=
  {| tick := tick s; retries := retries s; trace := trace s ++ evs |}.

(** A response that the listing probe takes as "not ready": a status other
    than 200, or status 200 with an empty result set. *)
Definition not_ready (r : ApiResponse) : Prop :=
  status r <> 200%Z \/ data r = Listing [].

(** The events of [k] failed attempts of the listing probe, the first of
    them logged as retry number [from]: the request, the log line, the
    delay. *)
Definition failedAttempts (uri : string) (from k : nat) : list Event :=
  flat_map (fun i => [ApiRequest "GET" uri NoPayload;
                      Log (retryLogMessage i);
                      Wait retryInterval])
           (seq from k).

Definition is_get (ev : Event) : bool :=
  match ev with
  | ApiRequest method _ _ => String.eqb method "GET"
  | _ => false
  end.

(** The number of GET requests in a trace. *)
Definition getRequests (evs : list Event) : nat :=
  length (List.filter is_get evs).

(** The failure that the poller holds after [k] "not ready" attempts. *)
Definition lastFailure (this : Service) (resp : nat -> ApiResponse) (k : nat) (last : Exn) : Exn :=
  match k with
  | O => last
  | S j => notReady this (data (resp j))
  end.

(** The events of the listing poll: log lines, delays and GET requests. *)
Definition is_polling (ev : Event) : bool :=
  match ev with
  | Log _ | Wait _ => true
  | ApiRequest method _ _ => String.eqb method "GET"
  | _ => false
  end.

(** [m] only adds events that satisfy [P] to the trace. *)
Definition emits {A} (m : M A) (P : Event -> bool) : Prop :=
  forall w s, exists evs, trace (m w s).2 = trace s ++ evs /\ forallb P evs = true.

(** The units of [observed] that [cleanUp] deletes: those whose name is
    among the names of the service (and passes the guard on empty names). *)
Definition deletedBy (this : Service) (observed : list FunctionEnvelope) : list string :=
  List.filter (fun n => array_includes (allFunctions this) n && negb (String.eqb n ""))
              (map fn_name observed).

(** The three stages of the external-package upload: the steps of the
    upload to object storage are stage 1, the read and the write of the
    application settings stage 2, the trigger sync stage 3. *)
Definition stage (ev : Event) : option nat :=
  match ev with
  | BlobInitialize | BlobCreateContainer _ | BlobUploadFile _ _ _ => Some 1
  | ListApplicationSettings _ _ => Some 2
  | ApiRequest method _ _ =>
      if String.eqb method "PUT" then Some 2
      else if String.eqb method "POST" then Some 3
      else None
  | _ => None
  end.

Definition in_stage (n : nat) (ev : Event) : bool :=
  match stage ev with
  | Some m => (m =? n)%nat
  | None => false
  end.


(** The write of the settings map. *)
Definition is_settings_write (ev : Event) : bool :=
  match ev with
  | ApiRequest method _ _ => String.eqb method "PUT"
  | _ => false
  end.



(** The two orderings, as checks that run along the trace. *)
Fixpoint staged (reached : nat) (evs : list Event) : bool :=
  match evs with
  | [] => true
  | ev :: rest =>
      match stage ev with
      | Some n => (reached <=? n)%nat && staged n rest
      | None => staged reached rest
      end
  end.


(** The uploads to blob storage of a trace, in the order of issue: the
    local path, the container and the blob name. *)
Fixpoint uploads (evs : list Event) : list (string * string * string) :=
  match evs with
  | [] => []
  | BlobUploadFile path container blob :: rest => (path, container, blob) :: uploads rest
  | _ :: rest => uploads rest
  end.

(** The character [c] occurs in [s]. *)
Fixpoint occurs (c : Ascii.ascii) (s : string) : bool :=
  match s with
  | EmptyString => false
  | String c0 rest => Ascii.eqb c0 c || occurs c rest
  end.

(** Neither a step of the settings read-modify-write nor the trigger sync. *)
Definition leaves_settings (ev : Event) : bool :=
  negb (in_stage 2 ev) && negb (in_stage 3 ev).

(** The events that touch blob storage only. *)
Definition is_blob (ev : Event) : bool :=
  match ev with
  | BlobInitialize | BlobCreateContainer _ | BlobUploadFile _ _ _ => true
  | _ => false
  end.

Module Sample2.

(** The token endpoint answers with a quoted token, the key endpoint with
    the master key. *)
Definition endpoints : KeyEndpoints := {|
  adminToken := fun _ _ =>
    Return (String quote ("eyJ0eXAi" +:+ String quote EmptyString));
  systemKey := fun _ _ _ => Return (Some "master-key");
|}.

(** The token endpoint is down. *)
Definition tokenDown : KeyEndpoints := {|
  adminToken := fun _ _ => Throw {| kind := TransportFailure; message := "401" |};
  systemKey := fun _ _ _ => Return (Some "master-key");
|}.

(** The build output and the user configuration on disk. *)
Definition glob (pattern : string) : Outcome (list string) :=
  if String.eqb pattern "./build/**"
  then Return ["./build/index.html"; "./build/static/js/main.js"]
  else if String.eqb pattern "./user_config/**"
  then Return ["./user_config/settings.json"]
  else Return [].

(** [glob] fails. *)
Definition globError (pattern : string) : Outcome (list string) :=
  Throw {| kind := RuntimeFault; message := "EACCES" |}.

(** The host rejects every DELETE request and lists [a], [b] and [c]. *)
Definition deleteRefused : World :=
  Sample.world
    (fun _ method =>
       if String.eqb method "DELETE"
       then Throw {| kind := TransportFailure; message := "409" |}
       else Sample.ok (Listing [Sample.deployed "a"; Sample.deployed "b"; Sample.deployed "c"]))
    (fun _ => true).

(** The host rejects the write of the settings. *)
Definition settingsRefused : World :=
  Sample.world
    (fun _ method =>
       if String.eqb method "PUT"
       then Throw {| kind := TransportFailure; message := "403" |}
       else Sample.ok (Listing [Sample.deployed "a"]))
    (fun _ => true).

(** The settings write answers with the settings the host now holds. *)
Definition settled : World :=
  Sample.world
    (fun _ method =>
       if String.eqb method "PUT"
       then Sample.ok (Document (Some (SettingsProperties {[ "k" := "v" ]})))
       else Sample.ok (Listing [Sample.deployed "a"]))
    (fun _ => true).

(** The service of [Sample] with the direct push selected. *)
Definition direct : Service := {|
  baseUrl := baseUrl Sample.service;
  subscriptionId := subscriptionId Sample.service;
  resourceGroup := resourceGroup Sample.service;
  resourceName := resourceName Sample.service;
  deployment_external := false;
  deployment_container := deployment_container Sample.service;
  artifactName := artifactName Sample.service;
  option_package := Some "";
  service_artifact := Some "dist/svc.zip";
  conventionalZip := conventionalZip Sample.service;
  allFunctions := allFunctions Sample.service;
  runFromPackageSetting := runFromPackageSetting Sample.service;
  stringify := stringify Sample.service;
  stringifySite := stringifySite Sample.service;
|}.


(** The function is not there: every request is answered with status 404. *)
Definition missing : World :=
  Sample.world (fun _ _ => Return {| status := 404; data := NoData |}) (fun _ => true).

(** The host is unreachable: every request is rejected. *)
Definition unreachable : World :=
  Sample.world
    (fun _ _ => Throw {| kind := TransportFailure; message := "ECONNREFUSED" |})
    (fun _ => true).

End Sample2.

(** Unfolding the primitives of the monad. *)
Ltac unfold_m :=
  cbv beta zeta iota delta
    [bind ret throw try_catch settle log wait emit remote sendApiRequest
     existsSync deref get_retries set_retries Guard.null Guard.empty] in *;
  simpl in *.

(** *** The host-descriptor fetch *)

(** C9: when the response of the fetch carries the error code of a missing
    resource or of a missing resource group, [get] returns [null] and does
    not throw; with any other response it returns the response, so the
    empty result tells "no host yet" apart. *)
Theorem get_not_found_is_absent (this : Service) (w : World) (s : State)
    (response : SiteResponse) :
  w_webAppsGet w (tick s) (resourceGroup this) (resourceName this) = Return response ->
  (error_code response = Some "ResourceNotFound"
   \/ error_code response = Some "ResourceGroupNotFound"
   -> (get this w s).1 = Return None)
  /\ ((get this w s).1 = Return None
      -> error_code response = Some "ResourceNotFound"
         \/ error_code response = Some "ResourceGroupNotFound")
  /\ exists r, (get this w s).1 = Return r.
Proof.
  intros Hw. unfold get, bind, remote, log, emit, ret; simpl. rewrite Hw.
  destruct (error_code response) as [code|] eqn:Hcode.
  - destruct (String.eqb_spec code "ResourceNotFound") as [->|Hn1]; simpl.
    + repeat split; eauto.
    + destruct (String.eqb_spec code "ResourceGroupNotFound") as [->|Hn2]; simpl.
      * repeat split; eauto.
      * repeat split; eauto; try discriminate.
        intros [H|H]; inversion H; congruence.
  - repeat split; eauto; try discriminate. intros [H|H]; discriminate.
Qed.

Lemma get_not_found_is_absent_witness :
  (get Sample.service Sample.unprovisioned initial).1 = Return None.
Proof.
  apply (get_not_found_is_absent Sample.service Sample.unprovisioned initial
           {| error_code := Some "ResourceGroupNotFound"; site := Sample.host |}).
  - reflexivity.
  - right. reflexivity.
Defined.

(** *** Deleting a function *)

Lemma deleteFunction_issues (this : Service) (w : World) (s : State)
    (app : Site) (functionName : string) :
  functionName <> "" ->
  deleteFunction this (Some app) functionName w s =
    (w_sendApiRequest w (tick s) "DELETE" (deleteFunctionUrl this app functionName) NoPayload,
     {| tick := S (tick s);
        retries := retries s;
        trace := trace s ++ [Log ("-> Deleting function: " +:+ functionName);
                             ApiRequest "DELETE"
                               (deleteFunctionUrl this app functionName) NoPayload] |}).
Proof.
  intros Hname. unfold deleteFunction. unfold_m.
  destruct (String.eqb_spec functionName "") as [?|_]; [contradiction|].
  simpl. by rewrite <- app_assoc.
Qed.

Lemma deleteFunction_empty_name (this : Service) (w : World) (s : State)
    (functionApp : option Site) :
  exists e, deleteFunction this functionApp "" w s = (Throw e, s)
            /\ kind e = PreconditionViolation.
Proof.
  unfold deleteFunction. unfold_m. destruct functionApp; simpl; eauto.
Qed.

(** C7: [deleteFunction] requires a host that is not null and a name that is
    not empty. When either fails it throws a precondition violation at once:
    the state is unchanged, so no request was issued. Under the precondition
    the guards pass and exactly the DELETE request is issued (after the log
    line), its settlement being the result. *)
Theorem deleteFunction_precondition (this : Service) (w : World) (s : State)
    (functionApp : option Site) (functionName : string) :
  (functionApp = None \/ functionName = "" ->
   exists e, deleteFunction this functionApp functionName w s = (Throw e, s)
             /\ kind e = PreconditionViolation)
  /\ (forall app, functionApp = Some app -> functionName <> "" ->
      deleteFunction this functionApp functionName w s =
        (w_sendApiRequest w (tick s) "DELETE" (deleteFunctionUrl this app functionName) NoPayload,
         {| tick := S (tick s);
            retries := retries s;
            trace := trace s ++ [Log ("-> Deleting function: " +:+ functionName);
                                 ApiRequest "DELETE"
                                   (deleteFunctionUrl this app functionName) NoPayload] |})).
Proof.
  split.
  - intros Hpre. unfold deleteFunction, bind, Guard.null, Guard.empty.
    destruct functionApp as [app|]; simpl.
    + destruct Hpre as [Hpre| ->]; [discriminate|]. simpl. eauto.
    + eauto.
  - intros app -> Hname. by apply deleteFunction_issues.
Qed.

Lemma deleteFunction_precondition_witness :
  (exists e, deleteFunction Sample.service None "a" Sample.converged initial
             = (Throw e, initial) /\ kind e = PreconditionViolation)
  /\ (exists e, deleteFunction Sample.service (Some Sample.host) "" Sample.converged initial
                = (Throw e, initial) /\ kind e = PreconditionViolation)
  /\ deleteRequests
       (trace (deleteFunction Sample.service (Some Sample.host) "a" Sample.converged initial).2)
     = [deleteFunctionUrl Sample.service Sample.host "a"].
Proof.
  destruct (deleteFunction_precondition Sample.service Sample.converged initial None "a")
    as [Hnull _].
  destruct (deleteFunction_precondition Sample.service Sample.converged initial
              (Some Sample.host) "") as [Hempty _].
  destruct (deleteFunction_precondition Sample.service Sample.converged initial
              (Some Sample.host) "a") as [_ Hissue].
  split; [|split].
  - apply Hnull. left. reflexivity.
  - apply Hempty. right. reflexivity.
  - rewrite (Hissue Sample.host); [reflexivity | reflexivity | discriminate].
Defined.

(** *** Updating one application setting *)

(** C8: [updateFunctionAppSetting] reads the settings map of the host, sets
    one key and pushes the whole map back: the map in the PUT request maps
    [setting] to [value] and every other key to what the fetch returned. *)
Theorem updateFunctionAppSetting_frame (this : Service) (w : World) (s : State)
    (app : Site) (setting value : string) (current : gmap string string) :
  w_listApplicationSettings w (tick s) (resourceGroup this) (site_name app)
    = Return {| settings := Some current |} ->
  exists pushed,
    trace (updateFunctionAppSetting this (Some app) setting value w s).2
      = trace s ++ [ListApplicationSettings (resourceGroup this) (site_name app);
                    ApiRequest "PUT" (appSettingsUrl this app)
                      (PropertiesPayload (Some (SettingsProperties pushed)))]
    /\ pushed !! setting = Some value
    /\ forall k, k <> setting -> pushed !! k = current !! k.
Proof.
  intros Hfetch. exists (<[setting := value]> current). split; [|split].
  - unfold updateFunctionAppSetting, bind, try_catch, remote, sendApiRequest, deref, ret;
      simpl.
    rewrite Hfetch; simpl.
    destruct (w_sendApiRequest w _ _ _ _); simpl; by rewrite <- app_assoc.
  - apply lookup_insert_eq.
  - intros k Hk. by apply lookup_insert_ne.
Qed.

Lemma updateFunctionAppSetting_frame_witness :
  exists pushed,
    trace (updateFunctionAppSetting Sample.service (Some Sample.host)
             "WEBSITE_RUN_FROM_PACKAGE" "https://storage/svc.zip?sas"
             Sample.converged initial).2
      = [ListApplicationSettings "rg" "h";
         ApiRequest "PUT" (appSettingsUrl Sample.service Sample.host)
           (PropertiesPayload (Some (SettingsProperties pushed)))]
    /\ pushed !! "WEBSITE_RUN_FROM_PACKAGE" = Some "https://storage/svc.zip?sas"
    /\ forall k, k <> "WEBSITE_RUN_FROM_PACKAGE" ->
         pushed !! k = ({[ "FUNCTIONS_WORKER_RUNTIME" := "node" ]} : gmap string string) !! k.
Proof.
  apply (updateFunctionAppSetting_frame Sample.service Sample.converged initial Sample.host
           "WEBSITE_RUN_FROM_PACKAGE" "https://storage/svc.zip?sas"
           {[ "FUNCTIONS_WORKER_RUNTIME" := "node" ]}).
  reflexivity.
Defined.

(** *** The direct push of the artifact *)

(** C6: when the artifact path is empty or names no file on local storage,
    [uploadZippedArfifactToFunctionApp] throws before any call to a
    collaborator: the call counter has not advanced, the trace has grown by
    local steps only (log lines and at most one existence check, no delay and
    no second attempt), and for a host that is not null the failure is the
    missing-artifact error. *)
Theorem direct_push_requires_artifact (w : World) (s : State)
    (functionApp : option Site) (functionZipFile : string) :
  functionZipFile = "" \/ w_existsSync w functionZipFile = false ->
  exists e s' evs,
    uploadZippedArfifactToFunctionApp functionApp functionZipFile w s = (Throw e, s')
    /\ tick s' = tick s
    /\ trace s' = trace s ++ evs
    /\ Forall (fun ev => is_remote ev = false /\ ev <> Wait retryInterval) evs
    /\ length (List.filter is_existsSync evs) <= 1
    /\ (is_Some functionApp ->
        e = {| kind := LocalArtifactMissing;
               message := "No zip file found for function app" |}).
Proof.
  intros Hmissing.
  unfold uploadZippedArfifactToFunctionApp, getScmDomain.
  destruct functionApp as [app|]; unfold_m.
  - destruct (String.eqb_spec functionZipFile "") as [->|Hne]; simpl.
    + do 3 eexists. split; [reflexivity|]. simpl.
      split; [reflexivity|]. split; [reflexivity|].
      split; [repeat constructor; discriminate|].
      split; [simpl; lia|]. reflexivity.
    + destruct Hmissing as [?|Hfs]; [contradiction|].
      rewrite Hfs; simpl.
      do 3 eexists. split; [reflexivity|]. simpl. rewrite <- app_assoc. simpl.
      split; [reflexivity|]. split; [reflexivity|].
      split; [repeat constructor; discriminate|].
      split; [simpl; lia|]. reflexivity.
  - exists {| kind := RuntimeFault; message := "Cannot read properties of null" |}, s, [].
    rewrite app_nil_r. simpl.
    split; [reflexivity|]. split; [reflexivity|]. split; [reflexivity|].
    split; [constructor|]. split; [lia|].
    intros [? ?]; discriminate.
Qed.

Lemma direct_push_requires_artifact_witness :
  exists e s' evs,
    uploadZippedArfifactToFunctionApp (Some Sample.host)
      ".serverless/svc.zip" Sample.unprovisioned initial = (Throw e, s')
    /\ tick s' = tick initial
    /\ trace s' = trace initial ++ evs
    /\ Forall (fun ev => is_remote ev = false /\ ev <> Wait retryInterval) evs
    /\ length (List.filter is_existsSync evs) <= 1
    /\ (is_Some (Some Sample.host) ->
        e = {| kind := LocalArtifactMissing;
               message := "No zip file found for function app" |}).
Proof.
  apply (direct_push_requires_artifact Sample.unprovisioned initial
           (Some Sample.host) ".serverless/svc.zip").
  right. reflexivity.
Defined.

(** *** Trigger extraction *)

Lemma isHttpTrigger_spec (b : Binding) :
  isHttpTrigger b = true <-> binding_type b = "httpTrigger".
Proof. unfold isHttpTrigger. apply String.eqb_eq. Qed.

(** [find] returns the first binding that is an HTTP trigger. *)
Lemma find_first_httpTrigger (pre post : list Binding) (b : Binding) :
  (forall b', b' ∈ pre -> binding_type b' <> "httpTrigger") ->
  binding_type b = "httpTrigger" ->
  List.find isHttpTrigger (pre ++ b :: post) = Some b.
Proof.
  intros Hpre Hb. induction pre as [|b0 pre IH]; simpl.
  - by rewrite (proj2 (isHttpTrigger_spec b) Hb).
  - destruct (isHttpTrigger b0) eqn:Hb0.
    + apply isHttpTrigger_spec in Hb0. exfalso. apply (Hpre b0); [left | done].
    + apply IH. intros b' Hin. apply Hpre. by right.
Qed.

Lemma find_no_httpTrigger (bindings : list Binding) :
  (forall b, b ∈ bindings -> binding_type b <> "httpTrigger") ->
  List.find isHttpTrigger bindings = None.
Proof.
  induction bindings as [|b0 rest IH]; simpl; intros Hnone; [done|].
  destruct (isHttpTrigger b0) eqn:Hb0.
  - apply isHttpTrigger_spec in Hb0. exfalso. apply (Hnone b0); [left | done].
  - apply IH. intros b Hin. apply Hnone. by right.
Qed.

(** C3, as the code has it: a unit without a binding of type ["httpTrigger"]
    yields no result; otherwise the first such binding decides. The URL is
    the default host name, ["/api/"] and the route, where the route is the
    binding's route when that is present and not the empty string, and the
    unit's name otherwise; the methods are the binding's list when present
    and [["*"]] otherwise. *)
Theorem http_trigger_config (functionApp : Site) (functionConfig : FunctionEnvelope) :
  ((forall b, b ∈ fn_bindings functionConfig -> binding_type b <> "httpTrigger") ->
   getFunctionHttpTriggerConfig functionApp functionConfig = None)
  /\ (forall pre b post,
        fn_bindings functionConfig = pre ++ b :: post ->
        (forall b', b' ∈ pre -> binding_type b' <> "httpTrigger") ->
        binding_type b = "httpTrigger" ->
        exists cfg,
          getFunctionHttpTriggerConfig functionApp functionConfig = Some cfg
          /\ (forall r, binding_route b = Some r -> r <> "" ->
              url cfg = defaultHostName functionApp +:+ "/api/" +:+ r)
          /\ (binding_route b = None \/ binding_route b = Some "" ->
              url cfg = defaultHostName functionApp +:+ "/api/" +:+ fn_name functionConfig)
          /\ (forall ms, binding_methods b = Some ms -> methods cfg = ms)
          /\ (binding_methods b = None -> methods cfg = ["*"])).
Proof.
  split.
  - intros Hnone. unfold getFunctionHttpTriggerConfig.
    by rewrite find_no_httpTrigger.
  - intros pre b post Hsplit Hpre Hb. unfold getFunctionHttpTriggerConfig.
    rewrite Hsplit, (find_first_httpTrigger pre post b Hpre Hb).
    eexists. split; [reflexivity|]. simpl. unfold or_string, truthy.
    split; [|split; [|split]].
    + intros r -> Hr. by destruct (String.eqb_spec r "").
    + by intros [-> | ->].
    + by intros ms ->.
    + by intros ->.
Qed.

Lemma http_trigger_config_witness :
  getFunctionHttpTriggerConfig Sample.host
    {| fn_name := "tick"; fn_bindings := [Sample.timer] |} = None
  /\ exists cfg,
       getFunctionHttpTriggerConfig Sample.host
         {| fn_name := "hello"; fn_bindings := [Sample.timer; Sample.rootRoute] |} = Some cfg
       /\ url cfg = "h.example.net/api/hello"
       /\ methods cfg = ["*"].
Proof.
  split.
  - apply (http_trigger_config Sample.host {| fn_name := "tick"; fn_bindings := [Sample.timer] |}).
    intros b Hb. apply list_elem_of_singleton in Hb. subst b. discriminate.
  - destruct (http_trigger_config Sample.host
                {| fn_name := "hello"; fn_bindings := [Sample.timer; Sample.rootRoute] |})
      as [_ Hfound].
    destruct (Hfound [Sample.timer] Sample.rootRoute []) as (cfg & Hcfg & _ & Hurl & _ & Hms).
    + reflexivity.
    + intros b Hb. apply list_elem_of_singleton in Hb. subst b. discriminate.
    + reflexivity.
    + exists cfg. split; [exact Hcfg|]. split.
      * apply Hurl. right. reflexivity.
      * apply Hms. reflexivity.
Defined.

(** C3 as stated fails: the route of the binding is present (the empty
    string), yet the URL ends in the unit's name, not in that route. *)
Lemma http_trigger_config_empty_route :
  exists cfg,
    getFunctionHttpTriggerConfig Sample.host
      {| fn_name := "hello"; fn_bindings := [Sample.rootRoute] |} = Some cfg
    /\ binding_route Sample.rootRoute = Some ""
    /\ url cfg <> defaultHostName Sample.host +:+ "/api/" +:+ "".
Proof.
  eexists. split; [reflexivity|]. split; [reflexivity|]. discriminate.
Qed.

(** C4, as the code has it: with the binding of the scenario as the first
    HTTP trigger and the host name [h.example.net], the URL is
    [h.example.net/api/widgets/{id}], the auth level is the binding's, and
    the methods are the binding's list unchanged, ["get"] and ["post"]. *)
Theorem widgets_trigger_config (functionApp : Site) (functionConfig : FunctionEnvelope)
    (pre post : list Binding) (level : option string) :
  defaultHostName functionApp = "h.example.net" ->
  fn_bindings functionConfig =
    pre ++ {| binding_type := "httpTrigger";
              binding_route := Some "widgets/{id}";
              binding_methods := Some ["get"; "post"];
              binding_authLevel := level |} :: post ->
  (forall b', b' ∈ pre -> binding_type b' <> "httpTrigger") ->
  getFunctionHttpTriggerConfig functionApp functionConfig =
    Some {| authLevel := level;
            methods := ["get"; "post"];
            url := "h.example.net/api/widgets/{id}";
            route := Some "widgets/{id}";
            name := fn_name functionConfig |}.
Proof.
  intros Hhost Hsplit Hpre. unfold getFunctionHttpTriggerConfig.
  rewrite Hsplit, find_first_httpTrigger; [|exact Hpre|reflexivity].
  simpl. by rewrite Hhost.
Qed.

Lemma widgets_trigger_config_witness :
  getFunctionHttpTriggerConfig Sample.host
    {| fn_name := "widget"; fn_bindings := [Sample.timer; Sample.widgets] |} =
    Some {| authLevel := Some "function";
            methods := ["get"; "post"];
            url := "h.example.net/api/widgets/{id}";
            route := Some "widgets/{id}";
            name := "widget" |}.
Proof.
  apply (widgets_trigger_config Sample.host
           {| fn_name := "widget"; fn_bindings := [Sample.timer; Sample.widgets] |}
           [Sample.timer] [] (Some "function")).
  - reflexivity.
  - reflexivity.
  - intros b Hb. apply list_elem_of_singleton in Hb. subst b. discriminate.
Defined.

(** C4 as stated fails: the methods are not normalised to upper case. *)
Lemma widgets_trigger_methods_not_upper :
  exists cfg,
    getFunctionHttpTriggerConfig Sample.host
      {| fn_name := "widget"; fn_bindings := [Sample.widgets] |} = Some cfg
    /\ url cfg = "h.example.net/api/widgets/{id}"
    /\ methods cfg = ["get"; "post"]
    /\ methods cfg <> ["GET"; "POST"].
Proof.
  eexists. split; [reflexivity|]. split; [reflexivity|]. split; [reflexivity|]. discriminate.
Qed.


(** *** Listing the deployed functions *)

Section Listing.

Variable this : Service.
Variable w : World.
Variable uri : string.

Lemma probe_not_ready (s : State) (r : ApiResponse) :
  w_sendApiRequest w (tick s) "GET" uri NoPayload = Return r ->
  not_ready r ->
  listFunctionsProbe this uri w s =
    (Throw (notReady this (data r)),
     {| tick := S (tick s);
        retries := S (retries s);
        trace := trace s ++ [ApiRequest "GET" uri NoPayload;
                             Log (retryLogMessage (retries s))] |}).
Proof.
  intros Hw Hr. unfold listFunctionsProbe. unfold_m. rewrite Hw.
  destruct (Z.eqb_spec (status r) 200) as [H200|Hn200]; simpl.
  - destruct Hr as [Hr|Hr]; [contradiction|]. rewrite Hr. simpl.
    by rewrite <- app_assoc.
  - by rewrite <- app_assoc.
Qed.

Lemma probe_ready (s : State) (r : ApiResponse) (value : list FunctionEnvelope) :
  w_sendApiRequest w (tick s) "GET" uri NoPayload = Return r ->
  status r = 200%Z ->
  data r = Listing value ->
  value <> [] ->
  listFunctionsProbe this uri w s =
    (Return r,
     {| tick := S (tick s);
        retries := retries s;
        trace := trace s ++ [ApiRequest "GET" uri NoPayload] |}).
Proof.
  intros Hw H200 Hdata Hvalue. unfold listFunctionsProbe. unfold_m.
  rewrite Hw, H200, Hdata. simpl.
  by destruct value.
Qed.

(** [k] "not ready" attempts consume [k] attempts of the poller. *)
Lemma retry_loop_not_ready (resp : nat -> ApiResponse) (k n : nat) :
  forall (s : State) (last : Exn),
    (forall i, i < k ->
       w_sendApiRequest w (tick s + i) "GET" uri NoPayload = Return (resp i)
       /\ not_ready (resp i)) ->
    Utils.retry_loop (listFunctionsProbe this uri) (k + n) retryInterval last w s =
    Utils.retry_loop (listFunctionsProbe this uri) n retryInterval
      (lastFailure this resp k last) w
      {| tick := tick s + k;
         retries := retries s + k;
         trace := trace s ++ failedAttempts uri (retries s) k |}.
Proof.
  revert resp. induction k as [|k IH]; intros resp s last Hresp.
  - simpl. unfold failedAttempts. simpl. rewrite app_nil_r, !Nat.add_0_r.
    by destruct s.
  - destruct (Hresp 0) as [Hw Hnr]; [lia|]. rewrite Nat.add_0_r in Hw.
    change (S k + n) with (S (k + n)).
    cbn [Utils.retry_loop]. unfold try_catch at 1.
    rewrite (probe_not_ready s (resp 0) Hw Hnr).
    unfold Utils.retryable, notReady at 1. cbn [kind].
    unfold bind at 1, wait at 1, emit at 1.
    rewrite (IH (fun i => resp (S i))).
    + cbn [tick retries trace].
      replace (S (tick s) + k) with (tick s + S k) by lia.
      replace (S (retries s) + k) with (retries s + S k) by lia.
      f_equal.
      * destruct k; reflexivity.
      * f_equal. unfold failedAttempts. cbn [seq flat_map].
        rewrite <- !app_assoc. reflexivity.
    + intros i Hi. cbn [tick]. replace (S (tick s) + i) with (tick s + S i) by lia.
      apply Hresp. lia.
Qed.

Lemma failedAttempts_requests (from k : nat) :
  getRequests (failedAttempts uri from k) = k.
Proof.
  unfold getRequests, failedAttempts. revert from.
  induction k as [|k IH]; intros from; [reflexivity|].
  cbn [seq flat_map]. rewrite List.filter_app, length_app, IH. reflexivity.
Qed.

(** C2: a response with a status other than 200, or with status 200 and an
    empty result set, is the retryable condition of [listFunctions]. When the
    first [k] attempts meet it and [k] is below 30, and attempt [k + 1] gets
    status 200 with a result set that is not empty, [listFunctions] returns
    that result set after exactly [k + 1] requests, every failed one followed
    by the delay of 30 seconds before the next. When all 30 attempts meet it,
    [listFunctions] throws the provisioning failure built from the body of
    the last response. *)
Theorem listFunctions_convergence (s : State) (app : Site)
    (resp : nat -> ApiResponse) (k : nat) :
  uri = listFunctionsUrl this app ->
  (forall i, i < k ->
     w_sendApiRequest w (tick s + i) "GET" uri NoPayload = Return (resp i)
     /\ not_ready (resp i)) ->
  (k < retryCount ->
   forall value,
     value <> [] ->
     w_sendApiRequest w (tick s + k) "GET" uri NoPayload
       = Return {| status := 200; data := Listing value |} ->
     exists evs,
       listFunctions this (Some app) w s =
         (Return value,
          {| tick := tick s + k + 1; retries := k; trace := trace s ++ evs |})
       /\ evs = failedAttempts uri 0 k ++ [ApiRequest "GET" uri NoPayload]
       /\ getRequests evs = k + 1)
  /\ (k = retryCount ->
      exists evs,
        listFunctions this (Some app) w s =
          (Throw (notReady this (data (resp 29))),
           {| tick := tick s + 30; retries := 30; trace := trace s ++ evs |})
        /\ evs = failedAttempts uri 0 30 ++ [Log "-> Unable to retrieve function app list"]
        /\ getRequests evs = 30).
Proof.
  intros Huri Hresp. split.
  - intros Hk value Hvalue Hok.
    exists (failedAttempts uri 0 k ++ [ApiRequest "GET" uri NoPayload]).
    split; [|split; [reflexivity|]].
    + unfold listFunctions, Utils.runWithRetry.
      cbv beta zeta iota delta [bind ret Guard.null deref set_retries try_catch].
      rewrite <- Huri.
      unfold retryCount in *.
      replace 30 with (k + S (29 - k)) by lia.
      rewrite (retry_loop_not_ready resp k (S (29 - k))); [|exact Hresp].
      cbn [Utils.retry_loop]. unfold try_catch.
      erewrite probe_ready; [|exact Hok|reflexivity|reflexivity|exact Hvalue].
      cbn [data tick retries trace]. rewrite <- app_assoc.
      repeat f_equal; lia.
    + unfold getRequests. rewrite List.filter_app, length_app.
      fold (getRequests (failedAttempts uri 0 k)).
      rewrite failedAttempts_requests. reflexivity.
  - intros ->.
    exists (failedAttempts uri 0 30 ++ [Log "-> Unable to retrieve function app list"]).
    split; [|split; [reflexivity|]].
    + unfold listFunctions, Utils.runWithRetry.
      cbv beta zeta iota delta [bind ret Guard.null deref set_retries try_catch].
      rewrite <- Huri.
      unfold retryCount in *.
      change 30 with (30 + 0) at 1.
      rewrite (retry_loop_not_ready resp 30 0); [|exact Hresp].
      cbn [Utils.retry_loop lastFailure]. unfold_m. rewrite <- app_assoc.
      reflexivity.
    + unfold getRequests. rewrite List.filter_app, length_app.
      fold (getRequests (failedAttempts uri 0 30)).
      rewrite failedAttempts_requests. reflexivity.
Qed.

End Listing.

(** *** What a computation adds to the trace *)

Section Emits.

Variable P : Event -> bool.

Lemma emits_ret {A} (a : A) : emits (ret a) P.
Proof. intros w s. exists []. by rewrite app_nil_r. Qed.

Lemma emits_throw {A} (e : Exn) : emits (@throw A e) P.
Proof. intros w s. exists []. by rewrite app_nil_r. Qed.

Lemma emits_bind {A B} (m : M A) (k : A -> M B) :
  emits m P -> (forall a, emits (k a) P) -> emits (bind m k) P.
Proof.
  intros Hm Hk w s. unfold bind.
  destruct (Hm w s) as (evs1 & Htr1 & HP1).
  destruct (m w s) as [[a|e] s1]; simpl in *.
  - destruct (Hk a w s1) as (evs2 & Htr2 & HP2).
    exists (evs1 ++ evs2). rewrite Htr2, Htr1, app_assoc, forallb_app, HP1, HP2. done.
  - by exists evs1.
Qed.

Lemma emits_try_catch {A} (m : M A) (h : Exn -> M A) :
  emits m P -> (forall e, emits (h e) P) -> emits (try_catch m h) P.
Proof.
  intros Hm Hh w s. unfold try_catch.
  destruct (Hm w s) as (evs1 & Htr1 & HP1).
  destruct (m w s) as [[a|e] s1]; simpl in *.
  - by exists evs1.
  - destruct (Hh e w s1) as (evs2 & Htr2 & HP2).
    exists (evs1 ++ evs2). rewrite Htr2, Htr1, app_assoc, forallb_app, HP1, HP2. done.
Qed.

Lemma emits_settle {A} (m : M A) : emits m P -> emits (settle m) P.
Proof.
  intros Hm w s. unfold settle. destruct (Hm w s) as (evs & Htr & HP).
  destruct (m w s) as [r s1]. by exists evs.
Qed.

Lemma emits_emit (ev : Event) : P ev = true -> emits (emit ev) P.
Proof. intros Hev w s. exists [ev]. simpl. by rewrite Hev. Qed.

Lemma emits_remote {A} (ev : Event) (answer : World -> nat -> Outcome A) :
  P ev = true -> emits (remote ev answer) P.
Proof. intros Hev w s. exists [ev]. simpl. by rewrite Hev. Qed.

Lemma emits_get_retries : emits get_retries P.
Proof. intros w s. exists []. by rewrite app_nil_r. Qed.

Lemma emits_set_retries (n : nat) : emits (set_retries n) P.
Proof. intros w s. exists []. simpl. by rewrite app_nil_r. Qed.

Lemma emits_guard_null {A} (value : option A) : emits (Guard.null value) P.
Proof. destruct value; [apply emits_ret | apply emits_throw]. Qed.

Lemma emits_guard_empty (value : string) : emits (Guard.empty value) P.
Proof.
  unfold Guard.empty. destruct (String.eqb value ""); [apply emits_throw | apply emits_ret].
Qed.

Lemma emits_deref {A} (value : option A) : emits (deref value) P.
Proof. destruct value; [apply emits_ret | apply emits_throw]. Qed.

Lemma emits_promise_all {A} (tasks : list (Outcome A)) : emits (promise_all tasks) P.
Proof.
  induction tasks as [|[a|e] rest IH]; simpl.
  - apply emits_ret.
  - apply emits_bind; [exact IH|]. intros vs. apply emits_ret.
  - apply emits_throw.
Qed.

Lemma emits_retry_loop {A} (probe : M A) (attempts : nat) (interval : Z) :
  emits probe P -> P (Wait interval) = true ->
  forall last, emits (Utils.retry_loop probe attempts interval last) P.
Proof.
  intros Hprobe Hwait. induction attempts as [|n IH]; intros last; simpl.
  - apply emits_throw.
  - apply emits_try_catch; [exact Hprobe|]. intros e.
    destruct (Utils.retryable e); [|apply emits_throw].
    apply emits_bind; [by apply emits_emit|]. intros _. apply IH.
Qed.

End Emits.

Create HintDb emits.
#[export] Hint Resolve emits_ret emits_throw emits_get_retries emits_set_retries
  emits_guard_null emits_guard_empty emits_deref emits_promise_all : emits.

(** Closing a goal [emits m P] by following the structure of [m]. *)
Ltac emits_step :=
  first
    [ apply emits_bind; [|intros ?]
    | apply emits_try_catch; [|intros ?]
    | apply emits_settle
    | apply emits_emit; reflexivity
    | apply emits_remote; reflexivity
    | apply emits_retry_loop; [|reflexivity]
    | solve [auto with emits] ].

Lemma listFunctionsProbe_polling (this : Service) (uri : string) :
  emits (listFunctionsProbe this uri) is_polling.
Proof.
  unfold listFunctionsProbe, sendApiRequest, log.
  apply emits_bind; [emits_step|]. intros r.
  destruct (negb (status r =? 200)%Z); [repeat emits_step|].
  destruct (data r) as [|value|]; [emits_step| |emits_step].
  destruct (length value =? 0)%nat; repeat emits_step.
Qed.

(** [listFunctions] only polls: it issues GET requests, log lines and delays. *)
Lemma listFunctions_polling (this : Service) (functionApp : option Site) :
  emits (listFunctions this functionApp) is_polling.
Proof.
  unfold listFunctions, Utils.runWithRetry, log.
  apply emits_bind; [auto with emits|]. intros _.
  apply emits_bind; [auto with emits|]. intros app.
  apply emits_bind; [auto with emits|]. intros _.
  apply emits_try_catch.
  - apply emits_bind.
    + apply emits_retry_loop; [apply listFunctionsProbe_polling | reflexivity].
    + intros r. destruct (data r); emits_step.
  - intros e. repeat emits_step.
Qed.

Lemma deleteRequests_app (evs1 evs2 : list Event) :
  deleteRequests (evs1 ++ evs2) = deleteRequests evs1 ++ deleteRequests evs2.
Proof.
  induction evs1 as [|ev rest IH]; [reflexivity|].
  destruct ev; simpl; try exact IH.
  destruct (String.eqb method "DELETE"); simpl; by rewrite IH.
Qed.

Lemma deleteRequests_polling (evs : list Event) :
  forallb is_polling evs = true -> deleteRequests evs = [].
Proof.
  induction evs as [|ev rest IH]; [reflexivity|]. simpl.
  intros [Hev Hrest]%andb_prop.
  destruct ev; simpl in *; try discriminate; auto.
  apply String.eqb_eq in Hev. subst method. simpl. auto.
Qed.

(** *** Cleaning up *)

Lemma array_includes_spec (xs : list string) (x : string) :
  array_includes xs x = true <-> x ∈ xs.
Proof.
  unfold array_includes. rewrite existsb_exists. split.
  - intros (y & Hin & Heq). apply String.eqb_eq in Heq. subst y.
    by apply list_elem_of_In.
  - intros Hin. exists x. split; [by apply list_elem_of_In | apply String.eqb_refl].
Qed.

Lemma string_length_append (s1 s2 : string) :
  String.length (s1 +:+ s2) = String.length s1 + String.length s2.
Proof. induction s1 as [|c s1 IH]; simpl; [reflexivity | by rewrite IH]. Qed.

Lemma string_append_inj_r (s1 s2 t : string) : s1 +:+ t = s2 +:+ t -> s1 = s2.
Proof.
  revert s2. induction s1 as [|c s1 IH]; intros [|c2 s2] Heq.
  - reflexivity.
  - apply (f_equal String.length) in Heq.
    rewrite !string_length_append in Heq. simpl in Heq. lia.
  - apply (f_equal String.length) in Heq.
    rewrite !string_length_append in Heq. simpl in Heq. lia.
  - cbn [String.append] in Heq. injection Heq as -> Heq. f_equal. by apply IH.
Qed.

(** Different names have different DELETE addresses. *)
Lemma deleteFunctionUrl_inj (this : Service) (app : Site) (n1 n2 : string) :
  deleteFunctionUrl this app n1 = deleteFunctionUrl this app n2 -> n1 = n2.
Proof.
  unfold deleteFunctionUrl. intros Heq.
  do 3 apply String.app_inj in Heq.
  by apply string_append_inj_r in Heq.
Qed.

(** [Promise.all] itself issues nothing. *)
Lemma promise_all_state {A} (tasks : list (Outcome A)) (w : World) (s : State) :
  (promise_all tasks w s).2 = s.
Proof.
  induction tasks as [|[a|e] rest IH]; simpl; [reflexivity| |reflexivity].
  unfold bind. destruct (promise_all rest w s) as [[vs|e] s']; exact IH.
Qed.

Lemma cleanUpTasks_trace (this : Service) (w : World) (app : Site)
    (observed : list FunctionEnvelope) :
  forall s, exists tasks s' evs,
    cleanUpTasks this (Some app) (allFunctions this) observed w s = (Return tasks, s')
    /\ trace s' = trace s ++ evs
    /\ deleteRequests evs = map (deleteFunctionUrl this app) (deletedBy this observed).
Proof.
  unfold deletedBy.
  induction observed as [|func rest IH]; intros s; simpl.
  - exists [], s, []. by rewrite app_nil_r.
  - destruct (array_includes (allFunctions this) (fn_name func)) eqn:Hin; simpl.
    + unfold bind at 1, settle at 1.
      destruct (String.eqb_spec (fn_name func) "") as [Hempty|Hname]; simpl.
      * rewrite Hempty.
        destruct (deleteFunction_empty_name this w s (Some app)) as (e & -> & _).
        unfold bind at 1.
        destruct (IH s) as (tasks & s' & evs & -> & Htr & Hdel).
        exists (Throw e :: tasks), s', evs. done.
      * rewrite (deleteFunction_issues this w s app (fn_name func) Hname).
        unfold bind at 1.
        match goal with |- context [cleanUpTasks _ _ _ rest w ?s1] =>
          destruct (IH s1) as (tasks & s' & evs & -> & Htr & Hdel) end.
        eexists _, s', (_ :: _ :: evs). split; [reflexivity|].
        split.
        -- rewrite Htr. simpl. rewrite <- app_assoc. reflexivity.
        -- simpl. by rewrite Hdel.
    + apply IH.
Qed.

(** C1, as the code has it: [cleanUp] issues one DELETE request for every
    observed unit whose name is among the declared names of the service (and
    is not empty), in the order of the listing, and none for an observed unit
    whose name is not declared. *)
Theorem cleanUp_deletes_declared (this : Service) (w : World) (s : State)
    (app : Site) (observed : list FunctionEnvelope) (s1 : State) :
  listFunctions this (Some app) w (record s [Log "Cleaning up existing functions"])
    = (Return observed, s1) ->
  exists evs,
    trace (cleanUp this (Some app) w s).2 = trace s ++ evs
    /\ deleteRequests evs = map (deleteFunctionUrl this app) (deletedBy this observed)
    /\ (forall u, u ∈ observed -> fn_name u ∈ allFunctions this -> fn_name u <> "" ->
        deleteFunctionUrl this app (fn_name u) ∈ deleteRequests evs)
    /\ (forall u, u ∈ observed -> fn_name u ∉ allFunctions this ->
        deleteFunctionUrl this app (fn_name u) ∉ deleteRequests evs).
Proof.
  intros Hlist.
  destruct (listFunctions_polling this (Some app) w
              (record s [Log "Cleaning up existing functions"]))
    as (evs1 & Htr1 & Hpoll).
  rewrite Hlist in Htr1. simpl in Htr1.
  destruct (cleanUpTasks_trace this w app observed s1) as (tasks & s2 & evs2 & Htasks & Htr2 & Hdel).
  pose proof (promise_all_state tasks w s2) as Hall.
  exists ([Log "Cleaning up existing functions"] ++ evs1 ++ evs2).
  assert (Hdeletes : deleteRequests ([Log "Cleaning up existing functions"] ++ evs1 ++ evs2)
                     = map (deleteFunctionUrl this app) (deletedBy this observed)).
  { simpl. by rewrite deleteRequests_app, (deleteRequests_polling evs1 Hpoll), Hdel. }
  split; [|split; [exact Hdeletes|split]].
  - unfold cleanUp. unfold_m. fold (record s [Log "Cleaning up existing functions"]).
    rewrite Hlist, Htasks.
    destruct (promise_all tasks w s2) as [r s3]. simpl in *. subst s3.
    rewrite Htr2, Htr1. simpl. by rewrite <- !app_assoc.
  - intros u Hu Hdeclared Hname. rewrite Hdeletes.
    apply list_elem_of_fmap_2. unfold deletedBy. apply list_elem_of_In, filter_In. split.
    + apply list_elem_of_In. by apply list_elem_of_fmap_2.
    + apply andb_true_intro. split; [by apply array_includes_spec|].
      by destruct (String.eqb_spec (fn_name u) "").
  - intros u Hu Hundeclared. rewrite Hdeletes.
    intros (n & Heq & Hn)%list_elem_of_fmap_1.
    apply deleteFunctionUrl_inj in Heq. subst n.
    unfold deletedBy in Hn. apply list_elem_of_In, filter_In in Hn as [_ Hn].
    apply andb_prop in Hn as [Hn _]. by apply array_includes_spec in Hn.
Qed.

Lemma cleanUp_deletes_declared_witness :
  exists evs,
    trace (cleanUp Sample.service (Some Sample.host) Sample.converged initial).2
      = trace initial ++ evs
    /\ deleteRequests evs
       = [deleteFunctionUrl Sample.service Sample.host "a";
          deleteFunctionUrl Sample.service Sample.host "b"].
Proof.
  destruct (cleanUp_deletes_declared Sample.service Sample.converged initial Sample.host
              [Sample.deployed "a"; Sample.deployed "b"; Sample.deployed "c"]
              {| tick := 1; retries := 0;
                 trace := [Log "Cleaning up existing functions";
                           ApiRequest "GET"
                             (listFunctionsUrl Sample.service Sample.host) NoPayload] |})
    as (evs & Htrace & Hdeletes & _).
  - vm_compute. reflexivity.
  - exists evs. split; [exact Htrace | exact Hdeletes].
Defined.

(** C1 as stated fails: with the declared names [a] and [b] and the observed
    units [a], [b] and [c], the DELETE requests are those for [a] and [b],
    and there is none for [c]. *)
Lemma cleanUp_scenario_deletes_declared :
  let issued :=
    deleteRequests
      (trace (cleanUp Sample.service (Some Sample.host) Sample.converged initial).2) in
  allFunctions Sample.service = ["a"; "b"]
  /\ issued = [deleteFunctionUrl Sample.service Sample.host "a";
               deleteFunctionUrl Sample.service Sample.host "b"]
  /\ issued <> [deleteFunctionUrl Sample.service Sample.host "c"].
Proof.
  split; [reflexivity|]. split; [vm_compute; reflexivity | vm_compute; discriminate].
Qed.

Lemma listFunctions_convergence_witness :
  (exists evs,
     listFunctions Sample.service (Some Sample.host) Sample.converging initial =
       (Return [Sample.deployed "a"], {| tick := 3; retries := 2; trace := evs |})
     /\ getRequests evs = 3)
  /\ (exists evs,
        listFunctions Sample.service (Some Sample.host) Sample.stuck initial =
          (Throw (notReady Sample.service (Listing [])),
           {| tick := 30; retries := 30; trace := evs |})
        /\ getRequests evs = 30).
Proof.
  split.
  - destruct (listFunctions_convergence Sample.service Sample.converging
                (listFunctionsUrl Sample.service Sample.host) initial Sample.host
                (fun _ => {| status := 200; data := Listing [] |}) 2) as [Hconverge _].
    + reflexivity.
    + intros i Hi. split; [|right; reflexivity].
      destruct i as [|[|i]]; [reflexivity | reflexivity | lia].
    + destruct (Hconverge ltac:(unfold retryCount; lia) [Sample.deployed "a"])
        as (evs & Hrun & _ & Hcount).
      * discriminate.
      * reflexivity.
      * exists (trace initial ++ evs). split; [exact Hrun | exact Hcount].
  - destruct (listFunctions_convergence Sample.service Sample.stuck
                (listFunctionsUrl Sample.service Sample.host) initial Sample.host
                (fun _ => {| status := 200; data := Listing [] |}) 30) as [_ Hexhaust].
    + reflexivity.
    + intros i Hi. split; [reflexivity | right; reflexivity].
    + destruct (Hexhaust eq_refl) as (evs & Hrun & _ & Hcount).
      exists (trace initial ++ evs). split; [exact Hrun | exact Hcount].
Defined.

(** *** Getting one function *)

(** A value returned by the poller was returned by an attempt of the probe,
    and the poller stops there. *)
Lemma retry_loop_returns {A} (probe : M A) (w : World) (attempts : nat) (interval : Z) :
  forall (last : Exn) (s s' : State) (a : A),
    Utils.retry_loop probe attempts interval last w s = (Return a, s') ->
    exists s0, probe w s0 = (Return a, s').
Proof.
  induction attempts as [|n IH]; intros last s s' a; simpl.
  - discriminate.
  - unfold try_catch. destruct (probe w s) as [[a0|e] s1] eqn:Hprobe.
    + intros [= -> ->]. eauto.
    + destruct (Utils.retryable e); [|discriminate].
      unfold bind, wait, emit. apply IH.
Qed.

Lemma getFunctionProbe_returns (uri : string) (w : World) (s s' : State) (r : ApiResponse) :
  getFunctionProbe uri w s = (Return r, s') ->
  w_sendApiRequest w (tick s) "GET" uri NoPayload = Return r
  /\ status r = 200%Z
  /\ tick s' = S (tick s)
  /\ trace s' = trace s ++ [ApiRequest "GET" uri NoPayload].
Proof.
  unfold getFunctionProbe. unfold_m.
  destruct (w_sendApiRequest w (tick s) "GET" uri NoPayload) as [r0|e]; [|discriminate].
  destruct (Z.eqb_spec (status r0) 200) as [H200|Hn200]; simpl; [|discriminate].
  by intros [= -> <-].
Qed.

(** C10, as the code has it: a null host or an empty name is rejected by the
    guards before the try block, and that precondition error reaches the
    caller with nothing issued. For a host that is not null and a name that
    is not empty, [getFunction] never throws; every failure of the retried
    probe ends in [null]; and a configuration is returned only when an
    attempt of the probe, the last request of the call, was answered with
    status 200. *)
Theorem getFunction_absorbs_failures (this : Service) (w : World) (s : State)
    (functionApp : option Site) (functionName : string) :
  (functionApp = None \/ functionName = "" ->
   exists e, getFunction this functionApp functionName w s = (Throw e, s)
             /\ kind e = PreconditionViolation)
  /\ (forall app, functionApp = Some app -> functionName <> "" ->
      (exists r s', getFunction this functionApp functionName w s = (Return r, s'))
      /\ (forall e s1,
            Utils.runWithRetry (getFunctionProbe (getFunctionUrl this app functionName))
              retryCount retryInterval w s = (Throw e, s1) ->
            getFunction this functionApp functionName w s = (Return None, s1))
      /\ (forall p s',
            getFunction this functionApp functionName w s = (Return (Some p), s') ->
            exists n r earlier,
              tick s' = S n
              /\ trace s' = earlier ++ [ApiRequest "GET" (getFunctionUrl this app functionName)
                                          NoPayload]
              /\ w_sendApiRequest w n "GET" (getFunctionUrl this app functionName) NoPayload
                 = Return r
              /\ status r = 200%Z
              /\ data r = Document (Some p))).
Proof.
  split.
  - intros Hpre. unfold getFunction.
    cbv beta zeta iota delta [bind ret throw Guard.null Guard.empty].
    destruct functionApp as [app|]; [|eauto].
    destruct Hpre as [Hpre| ->]; [discriminate|]. simpl. eauto.
  - intros app -> Hname.
    assert (Hrun : getFunction this (Some app) functionName w s =
                   match Utils.runWithRetry
                           (getFunctionProbe (getFunctionUrl this app functionName))
                           retryCount retryInterval w s with
                   | (Return response, s1) =>
                       match data response with
                       | NoData => (Return None, s1)
                       | Listing _ => (Return None, s1)
                       | Document properties => (Return properties, s1)
                       end
                   | (Throw _, s1) => (Return None, s1)
                   end).
    { unfold getFunction. unfold_m.
      destruct (String.eqb_spec functionName "") as [?|_]; [contradiction|]. simpl.
      destruct (Utils.runWithRetry _ _ _ w s) as [[response|e] s1]; [|reflexivity].
      by destruct (data response). }
    rewrite Hrun. split; [|split].
    + destruct (Utils.runWithRetry _ _ _ w s) as [[response|e] s1]; [|eauto].
      destruct (data response); eauto.
    + by intros e s1 ->.
    + intros p s'.
      destruct (Utils.runWithRetry _ _ _ w s) as [[response|e] s1] eqn:Hretry; [|discriminate].
      apply retry_loop_returns in Hretry as (s0 & Hprobe).
      apply getFunctionProbe_returns in Hprobe as (Hw & H200 & Htick & Htrace).
      destruct (data response) as [| |properties] eqn:Hdata; try discriminate.
      intros [= -> <-]. exists (tick s0), response, (trace s0). eauto.
Qed.

Lemma getFunction_absorbs_failures_witness :
  (exists e, getFunction Sample.service None "a" Sample2.missing initial = (Throw e, initial)
             /\ kind e = PreconditionViolation)
  /\ (exists e, getFunction Sample.service (Some Sample.host) "" Sample2.missing initial
                = (Throw e, initial)
                /\ kind e = PreconditionViolation)
  /\ (exists e,
        (Utils.runWithRetry
           (getFunctionProbe (getFunctionUrl Sample.service Sample.host "a"))
           retryCount retryInterval Sample2.missing initial).1 = Throw e
        /\ kind e = RuntimeFault
        /\ (getFunction Sample.service (Some Sample.host) "a" Sample2.missing initial).1
           = Return None)
  /\ (exists e,
        (Utils.runWithRetry
           (getFunctionProbe (getFunctionUrl Sample.service Sample.host "a"))
           retryCount retryInterval Sample2.unreachable initial).1 = Throw e
        /\ kind e = TransportFailure
        /\ (getFunction Sample.service (Some Sample.host) "a" Sample2.unreachable initial).1
           = Return None).
Proof.
  destruct (getFunction_absorbs_failures Sample.service Sample2.missing initial None "a")
    as [Hnull _].
  destruct (getFunction_absorbs_failures Sample.service Sample2.missing initial
              (Some Sample.host) "") as [Hempty _].
  destruct (getFunction_absorbs_failures Sample.service Sample2.missing initial
              (Some Sample.host) "a") as [_ Hmissing].
  destruct (getFunction_absorbs_failures Sample.service Sample2.unreachable initial
              (Some Sample.host) "a") as [_ Hunreachable].
  destruct (Hmissing Sample.host eq_refl ltac:(discriminate)) as (_ & Hcaught1 & _).
  destruct (Hunreachable Sample.host eq_refl ltac:(discriminate)) as (_ & Hcaught2 & _).
  split; [|split; [|split]].
  - apply Hnull. left. reflexivity.
  - apply Hempty. right. reflexivity.
  - exists {| kind := RuntimeFault;
              message := "Cannot access 'response' before initialization" |}.
    split; [vm_compute; reflexivity|]. split; [reflexivity|].
    rewrite (Hcaught1
               {| kind := RuntimeFault;
                  message := "Cannot access 'response' before initialization" |}
               (Utils.runWithRetry
                  (getFunctionProbe (getFunctionUrl Sample.service Sample.host "a"))
                  retryCount retryInterval Sample2.missing initial).2);
      [reflexivity | vm_compute; reflexivity].
  - exists {| kind := TransportFailure; message := "ECONNREFUSED" |}.
    split; [vm_compute; reflexivity|]. split; [reflexivity|].
    rewrite (Hcaught2
               {| kind := TransportFailure; message := "ECONNREFUSED" |}
               (Utils.runWithRetry
                  (getFunctionProbe (getFunctionUrl Sample.service Sample.host "a"))
                  retryCount retryInterval Sample2.unreachable initial).2);
      [reflexivity | vm_compute; reflexivity].
Defined.

(** C10 as stated fails: a null host, or an empty name, is rejected by the
    guards, and that error reaches the caller. *)
Lemma getFunction_guard_error_propagates :
  (exists e, getFunction Sample.service None "a" Sample.converged initial = (Throw e, initial)
             /\ kind e = PreconditionViolation)
  /\ (exists e, getFunction Sample.service (Some Sample.host) "" Sample.converged initial
                = (Throw e, initial)
                /\ kind e = PreconditionViolation).
Proof. split; eexists; split; reflexivity. Qed.

(** *** The external-package upload *)

Lemma staged_mono (evs : list Event) :
  forall m n, m <= n -> staged n evs = true -> staged m evs = true.
Proof.
  induction evs as [|ev rest IH]; intros m n Hmn; simpl; [done|].
  destruct (stage ev) as [x|]; [|by apply IH].
  intros [Hle Hrest]%andb_prop. apply Nat.leb_le in Hle.
  rewrite Hrest, andb_true_r. apply Nat.leb_le. lia.
Qed.









Lemma reportFunctions_polling (app : Site) (serverlessFunctions : list string)
    (deployedFunctions : list FunctionEnvelope) :
  emits (reportFunctions app serverlessFunctions deployedFunctions) is_polling.
Proof.
  induction deployedFunctions as [|functionConfig rest IH]; simpl; [emits_step|].
  apply emits_bind; [|intros _; exact IH].
  destruct (array_includes serverlessFunctions (fn_name functionConfig)); [|emits_step].
  destruct (getFunctionHttpTriggerConfig app functionConfig) as [httpConfig|]; [|emits_step].
  unfold log. destruct (methods httpConfig); emits_step.
Qed.



(** What [uploadFunctions] does after the upload: the report. *)
Lemma report_polling (this : Service) (functionApp : option Site) :
  emits (do _ <- log "Deployed serverless functions:";
         do deployedFunctions <- listFunctions this functionApp;
         do app <- deref functionApp;
         reportFunctions app (allFunctions this) deployedFunctions) is_polling.
Proof.
  unfold log.
  apply emits_bind; [emits_step|]. intros _.
  apply emits_bind; [apply listFunctions_polling|]. intros deployedFunctions.
  apply emits_bind; [emits_step|]. intros app.
  apply reportFunctions_polling.
Qed.



(** ** Further properties of the service *)

(** *** Syncing the triggers *)

(** X1: for a host that is not null, [syncTriggers] issues exactly one POST
    request, carrying the properties it was given; the answer of the host is
    the result, and a rejection is thrown once, wrapped under the message
    prefix of the sync, without a second attempt. *)
Theorem syncTriggers_single_request (this : Service) (w : World) (s : State)
    (app : Site) (properties : option Properties) :
  let request :=
    ApiRequest "POST" (syncTriggersUrl this app) (PropertiesPayload properties) in
  let answer :=
    w_sendApiRequest w (tick s) "POST" (syncTriggersUrl this app)
      (PropertiesPayload properties) in
  (syncTriggers this (Some app) properties w s).2 =
    {| tick := S (tick s);
       retries := retries s;
       trace := trace s ++ [Log "Syncing function triggers"; request] |}
  /\ (forall response, answer = Return response ->
      (syncTriggers this (Some app) properties w s).1 = Return response)
  /\ (forall err, answer = Throw err ->
      (syncTriggers this (Some app) properties w s).1 =
        Throw {| kind := TransportFailure;
                 message := "Error syncing function app triggers: " +:+ toString err |}).
Proof.
  unfold syncTriggers. unfold_m.
  destruct (w_sendApiRequest w (tick s) "POST" (syncTriggersUrl this app)
              (PropertiesPayload properties)) as [response|err]; simpl.
  - rewrite <- app_assoc. split; [reflexivity|]. split; [by intros ? [= ->] | discriminate].
  - rewrite <- app_assoc. split; [reflexivity|]. split; [discriminate | by intros ? [= ->]].
Qed.

Lemma syncTriggers_single_request_witness :
  (syncTriggers Sample.service (Some Sample.host) None Sample2.deleteRefused initial).1
    = Return {| status := 200;
                data := Listing [Sample.deployed "a"; Sample.deployed "b";
                                 Sample.deployed "c"] |}.
Proof.
  destruct (syncTriggers_single_request Sample.service Sample2.deleteRefused initial
              Sample.host None) as (_ & Hanswer & _).
  apply Hanswer. reflexivity.
Defined.

(** *** Failures of the settings update *)

(** X2: [updateFunctionAppSetting] pushes nothing when the fetch of the
    current settings fails or returns no settings map, and the failure of
    the fetch reaches the caller as it is; a rejected PUT is thrown wrapped
    under the message prefix of the update; an answered PUT gives its body. *)
Theorem updateFunctionAppSetting_failures (this : Service) (w : World) (s : State)
    (app : Site) (setting value : string) :
  let fetch := w_listApplicationSettings w (tick s) (resourceGroup this) (site_name app) in
  let fetched :=
    {| tick := S (tick s);
       retries := retries s;
       trace := trace s ++ [ListApplicationSettings (resourceGroup this) (site_name app)] |} in
  (forall e, fetch = Throw e ->
     updateFunctionAppSetting this (Some app) setting value w s = (Throw e, fetched))
  /\ (fetch = Return {| settings := None |} ->
      exists e, updateFunctionAppSetting this (Some app) setting value w s = (Throw e, fetched)
                /\ kind e = RuntimeFault)
  /\ (forall current,
        fetch = Return {| settings := Some current |} ->
        let body := PropertiesPayload (Some (SettingsProperties (<[setting := value]> current))) in
        let answer := w_sendApiRequest w (S (tick s)) "PUT" (appSettingsUrl this app) body in
        (forall err, answer = Throw err ->
           (updateFunctionAppSetting this (Some app) setting value w s).1 =
             Throw {| kind := TransportFailure;
                      message := "Failed to update function app settings: "
                                   +:+ toString err |})
        /\ (forall response, answer = Return response ->
            (updateFunctionAppSetting this (Some app) setting value w s).1 =
              Return (data response))).
Proof.
  unfold updateFunctionAppSetting. unfold_m. split; [|split].
  - by intros e ->.
  - intros ->. simpl. eauto.
  - intros current ->. simpl. split.
    + by intros err ->.
    + by intros response ->.
Qed.

Lemma updateFunctionAppSetting_failures_witness :
  (updateFunctionAppSetting Sample.service (Some Sample.host) "k" "v"
     Sample2.settingsRefused initial).1 =
    Throw {| kind := TransportFailure;
             message := "Failed to update function app settings: Error: 403" |}.
Proof.
  destruct (updateFunctionAppSetting_failures Sample.service Sample2.settingsRefused initial
              Sample.host "k" "v") as (_ & _ & Hput).
  destruct (Hput {[ "FUNCTIONS_WORKER_RUNTIME" := "node" ]} eq_refl) as [Hrejected _].
  apply (Hrejected {| kind := TransportFailure; message := "403" |}). reflexivity.
Defined.

(** *** The path of the artifact *)

(** X3: [getFunctionZipFile] resolves the artifact by precedence: the
    [package] option when it is set and not empty, else the artifact of the
    service when that is set and not empty, else the conventional path under
    the service directory. An empty string counts as not set. *)
Theorem getFunctionZipFile_precedence (this : Service) :
  (forall p, option_package this = Some p -> p <> "" -> getFunctionZipFile this = p)
  /\ (forall a,
        option_package this = None \/ option_package this = Some "" ->
        service_artifact this = Some a -> a <> "" ->
        getFunctionZipFile this = a)
  /\ (option_package this = None \/ option_package this = Some "" ->
      service_artifact this = None \/ service_artifact this = Some "" ->
      getFunctionZipFile this = conventionalZip this).
Proof.
  unfold getFunctionZipFile, or_string, truthy. split; [|split].
  - intros p -> Hp. by destruct (String.eqb_spec p "").
  - intros a [-> | ->] -> Ha; simpl; by destruct (String.eqb_spec a "").
  - by intros [-> | ->] [-> | ->].
Qed.

Lemma getFunctionZipFile_precedence_witness :
  getFunctionZipFile Sample2.direct = "dist/svc.zip"
  /\ getFunctionZipFile Sample.service = ".serverless/svc.zip".
Proof.
  destruct (getFunctionZipFile_precedence Sample2.direct) as (_ & Hartifact & _).
  destruct (getFunctionZipFile_precedence Sample.service) as (_ & _ & Hconventional).
  split.
  - apply Hartifact; [right; reflexivity | reflexivity | discriminate].
  - apply Hconventional; left; reflexivity.
Defined.

(** *** What the listing returns and how often it asks *)

(** Unfolding the primitives of the monad and nothing else. *)
Ltac unfold_only_m :=
  cbv beta zeta iota delta
    [bind ret throw try_catch settle log wait emit remote sendApiRequest
     existsSync deref get_retries set_retries Guard.null Guard.empty] in *.

Lemma listFunctionsProbe_returns (this : Service) (uri : string) (w : World)
    (s s' : State) (r : ApiResponse) :
  listFunctionsProbe this uri w s = (Return r, s') ->
  w_sendApiRequest w (tick s) "GET" uri NoPayload = Return r
  /\ status r = 200%Z
  /\ (exists value, data r = Listing value /\ value <> [])
  /\ tick s' = S (tick s).
Proof.
  unfold listFunctionsProbe. unfold_m.
  destruct (w_sendApiRequest w (tick s) "GET" uri NoPayload) as [r0|e]; [|discriminate].
  destruct (Z.eqb_spec (status r0) 200) as [H200|Hn200]; simpl; [|discriminate].
  destruct (data r0) as [|value|] eqn:Hdata; try discriminate.
  destruct value as [|u value]; simpl; [discriminate|].
  intros [= -> <-]. rewrite Hdata. repeat split; eauto.
Qed.

(** X4: whenever [listFunctions] returns, the list is not empty, and it is
    the result set of the last request of the call, which the host answered
    with status 200. *)
Theorem listFunctions_result_nonempty (this : Service) (w : World) (s s' : State)
    (functionApp : option Site) (value : list FunctionEnvelope) :
  listFunctions this functionApp w s = (Return value, s') ->
  value <> []
  /\ exists app n,
       functionApp = Some app
       /\ tick s' = S n
       /\ w_sendApiRequest w n "GET" (listFunctionsUrl this app) NoPayload
          = Return {| status := 200; data := Listing value |}.
Proof.
  unfold listFunctions, Utils.runWithRetry.
  destruct functionApp as [app|]; unfold_only_m; [|discriminate].
  destruct (Utils.retry_loop (listFunctionsProbe this (listFunctionsUrl this app)) _ _ _ w _)
    as [[response|e] s1] eqn:Hretry; [|discriminate].
  apply retry_loop_returns in Hretry as (s0 & Hprobe).
  apply listFunctionsProbe_returns in Hprobe as (Hw & H200 & (v & Hdata & Hv) & Htick).
  rewrite Hdata. intros [= <- <-]. split; [exact Hv|].
  exists app, (tick s0). split; [reflexivity|]. split; [exact Htick|].
  rewrite Hw. destruct response as [st d]; simpl in *. by subst.
Qed.

Lemma listFunctions_result_nonempty_witness :
  [Sample.deployed "a"] <> []
  /\ exists app n,
       Some Sample.host = Some app
       /\ tick {| tick := 3; retries := 2;
                  trace := (listFunctions Sample.service (Some Sample.host)
                              Sample.converging initial).2.(trace) |} = S n
       /\ w_sendApiRequest Sample.converging n "GET"
            (listFunctionsUrl Sample.service app) NoPayload
          = Return {| status := 200; data := Listing [Sample.deployed "a"] |}.
Proof.
  apply (listFunctions_result_nonempty Sample.service Sample.converging initial).
  vm_compute. reflexivity.
Defined.

Lemma getRequests_app (evs1 evs2 : list Event) :
  getRequests (evs1 ++ evs2) = getRequests evs1 + getRequests evs2.
Proof. unfold getRequests. by rewrite List.filter_app, length_app. Qed.

(** A poller whose probe asks at most once asks at most as often as it has
    attempts. *)
Lemma retry_loop_requests {A} (probe : M A) (w : World) (interval : Z) :
  (forall s, exists evs, trace (probe w s).2 = trace s ++ evs /\ getRequests evs <= 1) ->
  forall attempts last s,
    exists evs,
      trace (Utils.retry_loop probe attempts interval last w s).2 = trace s ++ evs
      /\ getRequests evs <= attempts.
Proof.
  intros Hprobe. induction attempts as [|n IH]; intros last s; simpl.
  - exists []. rewrite app_nil_r. split; [reflexivity | unfold getRequests; simpl; lia].
  - unfold try_catch. destruct (Hprobe s) as (evs1 & Htr1 & Hone).
    destruct (probe w s) as [[a|e] s1]; simpl in Htr1.
    + exists evs1. simpl. split; [exact Htr1 | lia].
    + destruct (Utils.retryable e); simpl.
      * unfold bind, wait, emit.
        match goal with |- context [Utils.retry_loop probe n interval e w ?s2] =>
          destruct (IH e s2) as (evs2 & Htr2 & Hn) end.
        simpl in Htr2.
        exists (evs1 ++ Wait interval :: evs2). split.
        -- rewrite Htr2, Htr1, <- !app_assoc. reflexivity.
        -- rewrite getRequests_app. unfold getRequests at 2. simpl.
           fold (getRequests evs2). lia.
      * exists evs1. split; [exact Htr1 | lia].
Qed.

Lemma listFunctionsProbe_one_request (this : Service) (uri : string) (w : World) (s : State) :
  exists evs, trace (listFunctionsProbe this uri w s).2 = trace s ++ evs
              /\ getRequests evs <= 1.
Proof.
  unfold listFunctionsProbe. unfold_m.
  destruct (w_sendApiRequest w (tick s) "GET" uri NoPayload) as [r|e]; simpl.
  - destruct (negb (status r =? 200)%Z); simpl.
    + eexists. rewrite <- app_assoc. split; [reflexivity|]. simpl. reflexivity.
    + destruct (data r) as [|value|]; simpl; try (eexists; split; [reflexivity|]; reflexivity).
      destruct (length value =? 0)%nat; simpl.
      * eexists. rewrite <- app_assoc. split; [reflexivity|]. reflexivity.
      * eexists. split; [reflexivity|]. reflexivity.
  - eexists. split; [reflexivity|]. reflexivity.
Qed.

Lemma getFunctionProbe_one_request (uri : string) (w : World) (s : State) :
  exists evs, trace (getFunctionProbe uri w s).2 = trace s ++ evs
              /\ getRequests evs <= 1.
Proof.
  unfold getFunctionProbe. unfold_m.
  destruct (w_sendApiRequest w (tick s) "GET" uri NoPayload) as [r|e]; simpl.
  - destruct (negb (status r =? 200)%Z); simpl.
    + eexists. rewrite <- app_assoc. split; [reflexivity|]. reflexivity.
    + eexists. split; [reflexivity|]. reflexivity.
  - eexists. split; [reflexivity|]. reflexivity.
Qed.

(** X5: whatever the host answers, one call of [listFunctions] and one call
    of [getFunction] each issue at most 30 GET requests, and [listFunctions]
    issues nothing but GET requests, log lines and delays. *)
Theorem polling_is_bounded (this : Service) (w : World) (s : State)
    (functionApp : option Site) (functionName : string) :
  (exists evs,
     trace (listFunctions this functionApp w s).2 = trace s ++ evs
     /\ getRequests evs <= retryCount
     /\ forallb is_polling evs = true)
  /\ (exists evs,
        trace (getFunction this functionApp functionName w s).2 = trace s ++ evs
        /\ getRequests evs <= retryCount).
Proof.
  split.
  - destruct (listFunctions_polling this functionApp w s) as (evs & Htr & Hpoll).
    exists evs. split; [exact Htr|]. split; [|exact Hpoll].
    revert Htr. unfold listFunctions, Utils.runWithRetry.
    destruct functionApp as [app|]; unfold_only_m.
    + match goal with |- context [Utils.retry_loop ?p ?n ?i ?l w ?s0] =>
        destruct (retry_loop_requests p w i
                    (listFunctionsProbe_one_request this (listFunctionsUrl this app) w) n l s0)
          as (evs1 & Htr1 & Hn);
        destruct (Utils.retry_loop p n i l w s0) as [[response|e] s1] end;
        simpl in Htr1.
      * destruct (data response); cbn [snd trace]; rewrite Htr1; intros Heq;
          rewrite <- ?app_assoc in Heq; apply app_inv_head in Heq; subst evs;
          rewrite ?getRequests_app; unfold getRequests in *; simpl; lia.
      * cbn [snd trace]. rewrite Htr1. intros Heq.
        rewrite <- app_assoc in Heq. apply app_inv_head in Heq. subst evs.
        rewrite getRequests_app. unfold getRequests at 2. simpl. lia.
    + cbn [snd]. intros Hnil. rewrite <- (app_nil_r (trace s)) in Hnil at 1.
      apply app_inv_head in Hnil. subst evs. unfold getRequests. simpl. lia.
  - unfold getFunction, Utils.runWithRetry.
    destruct functionApp as [app|]; unfold_only_m.
    + destruct (String.eqb functionName ""); cbn [snd fst trace].
      { exists []. rewrite app_nil_r. split; [reflexivity | unfold getRequests; simpl; lia]. }
      match goal with |- context [Utils.retry_loop ?p ?n ?i ?l w ?s0] =>
        destruct (retry_loop_requests p w i
                    (getFunctionProbe_one_request (getFunctionUrl this app functionName) w)
                    n l s0)
          as (evs1 & Htr1 & Hn);
        destruct (Utils.retry_loop p n i l w s0) as [[response|e] s1] end;
        simpl in Htr1.
      * exists evs1. split; [|exact Hn]. by destruct (data response).
      * exists evs1. split; [exact Htr1 | exact Hn].
    + exists []. rewrite app_nil_r. split; [reflexivity | unfold getRequests; simpl; lia].
Qed.

(** *** Cleaning up when the host does not cooperate *)

(** X6: when the listing fails, [cleanUp] fails with the same error in the
    state the listing left, and no DELETE request was issued. *)
Theorem cleanUp_listing_failure (this : Service) (w : World) (s s1 : State)
    (app : Site) (e : Exn) :
  listFunctions this (Some app) w (record s [Log "Cleaning up existing functions"])
    = (Throw e, s1) ->
  cleanUp this (Some app) w s = (Throw e, s1)
  /\ exists evs, trace s1 = trace s ++ evs /\ deleteRequests evs = [].
Proof.
  intros Hlist.
  destruct (listFunctions_polling this (Some app) w
              (record s [Log "Cleaning up existing functions"])) as (evs & Htr & Hpoll).
  rewrite Hlist in Htr. simpl in Htr. split.
  - unfold cleanUp. unfold_only_m.
    fold (record s [Log "Cleaning up existing functions"]). by rewrite Hlist.
  - exists (Log "Cleaning up existing functions" :: evs). split.
    + rewrite Htr, <- app_assoc. reflexivity.
    + simpl. by apply deleteRequests_polling.
Qed.

Lemma cleanUp_listing_failure_witness :
  (cleanUp Sample.service (Some Sample.host) Sample.stuck initial).1
    = Throw (notReady Sample.service (Listing [])).
Proof.
  destruct (cleanUp_listing_failure Sample.service Sample.stuck initial
              (listFunctions Sample.service (Some Sample.host) Sample.stuck
                 (record initial [Log "Cleaning up existing functions"])).2
              Sample.host (notReady Sample.service (Listing []))) as [Hrun _].
  - vm_compute. reflexivity.
  - rewrite Hrun. reflexivity.
Defined.

(** When the host rejects every DELETE request, every delete task is
    rejected. *)
Lemma cleanUpTasks_rejected (this : Service) (w : World) (app : Site) (e0 : Exn)
    (observed : list FunctionEnvelope) :
  (forall n u, w_sendApiRequest w n "DELETE" u NoPayload = Throw e0) ->
  forall s tasks s',
    cleanUpTasks this (Some app) (allFunctions this) observed w s = (Return tasks, s') ->
    Forall (fun task => exists e, task = Throw e) tasks
    /\ ((exists u, u ∈ observed /\ fn_name u ∈ allFunctions this) -> tasks <> []).
Proof.
  intros Hrej. induction observed as [|func rest IH]; intros s tasks s'; simpl.
  - unfold ret. intros [= <- _]. split; [constructor|].
    intros (u & Hu & _). by apply elem_of_nil in Hu.
  - destruct (array_includes (allFunctions this) (fn_name func)) eqn:Hin.
    + unfold bind at 1, settle at 1.
      destruct (deleteFunction this (Some app) (fn_name func) w s) as [r s1] eqn:Hdel.
      unfold bind at 1.
      destruct (cleanUpTasks this (Some app) (allFunctions this) rest w s1)
        as [[tasks1|e1] s2] eqn:Hrest; [|discriminate].
      unfold ret. intros [= <- _].
      destruct (IH s1 tasks1 s2 Hrest) as [Hall _].
      split; [|done]. constructor; [|exact Hall].
      destruct (String.eqb_spec (fn_name func) "") as [Hempty|Hname].
      * rewrite Hempty in Hdel.
        destruct (deleteFunction_empty_name this w s (Some app)) as (e & He & _).
        rewrite He in Hdel. injection Hdel as <- _. eauto.
      * rewrite (deleteFunction_issues this w s app (fn_name func) Hname), Hrej in Hdel.
        injection Hdel as <- _. eauto.
    + intros Hrun. destruct (IH s tasks s' Hrun) as [Hall Hne]. split; [exact Hall|].
      intros (u & Hu & Hdeclared). apply Hne. exists u. split; [|exact Hdeclared].
      apply elem_of_cons in Hu as [->|Hu]; [|exact Hu].
      apply array_includes_spec in Hdeclared. congruence.
Qed.

Lemma promise_all_rejected {A} (tasks : list (Outcome A)) (w : World) (s : State) :
  Forall (fun task => exists e, task = Throw e) tasks -> tasks <> [] ->
  exists e, (promise_all tasks w s).1 = Throw e.
Proof.
  intros Hall Hne. destruct tasks as [|task rest]; [done|].
  apply Forall_cons_1 in Hall as [(e & ->) _]. simpl. eauto.
Qed.

(** X7: when the host rejects the DELETE requests, [cleanUp] fails, yet it
    has issued the request for every observed unit that is declared: one
    rejection does not keep the later deletes from being attempted. *)
Theorem cleanUp_attempts_all_deletes (this : Service) (w : World) (s s1 : State)
    (app : Site) (observed : list FunctionEnvelope) (e0 : Exn) :
  listFunctions this (Some app) w (record s [Log "Cleaning up existing functions"])
    = (Return observed, s1) ->
  (forall n u, w_sendApiRequest w n "DELETE" u NoPayload = Throw e0) ->
  (exists u, u ∈ observed /\ fn_name u ∈ allFunctions this) ->
  exists e evs,
    (cleanUp this (Some app) w s).1 = Throw e
    /\ trace (cleanUp this (Some app) w s).2 = trace s ++ evs
    /\ deleteRequests evs = map (deleteFunctionUrl this app) (deletedBy this observed).
Proof.
  intros Hlist Hrej Hdeclared.
  destruct (listFunctions_polling this (Some app) w
              (record s [Log "Cleaning up existing functions"])) as (evs1 & Htr1 & Hpoll).
  rewrite Hlist in Htr1. simpl in Htr1.
  destruct (cleanUpTasks_trace this w app observed s1)
    as (tasks & s2 & evs2 & Htasks & Htr2 & Hdel).
  destruct (cleanUpTasks_rejected this w app e0 observed Hrej s1 tasks s2 Htasks)
    as [Hall Hne].
  destruct (promise_all_rejected tasks w s2 Hall (Hne Hdeclared)) as (e & He).
  pose proof (promise_all_state tasks w s2) as Hstate.
  exists e, ([Log "Cleaning up existing functions"] ++ evs1 ++ evs2).
  assert (Hrun : cleanUp this (Some app) w s = promise_all tasks w s2).
  { unfold cleanUp. unfold_only_m.
    fold (record s [Log "Cleaning up existing functions"]). by rewrite Hlist, Htasks. }
  rewrite Hrun. split; [exact He|]. split.
  - rewrite Hstate, Htr2, Htr1, <- !app_assoc. reflexivity.
  - simpl. by rewrite deleteRequests_app, (deleteRequests_polling evs1 Hpoll), Hdel.
Qed.

Lemma cleanUp_attempts_all_deletes_witness :
  exists e evs,
    (cleanUp Sample.service (Some Sample.host) Sample2.deleteRefused initial).1 = Throw e
    /\ trace (cleanUp Sample.service (Some Sample.host) Sample2.deleteRefused initial).2
       = trace initial ++ evs
    /\ deleteRequests evs
       = map (deleteFunctionUrl Sample.service Sample.host)
           (deletedBy Sample.service
              [Sample.deployed "a"; Sample.deployed "b"; Sample.deployed "c"]).
Proof.
  apply (cleanUp_attempts_all_deletes Sample.service Sample2.deleteRefused initial
           (listFunctions Sample.service (Some Sample.host) Sample2.deleteRefused
              (record initial [Log "Cleaning up existing functions"])).2
           Sample.host
           [Sample.deployed "a"; Sample.deployed "b"; Sample.deployed "c"]
           {| kind := TransportFailure; message := "409" |}).
  - vm_compute. reflexivity.
  - reflexivity.
  - exists (Sample.deployed "a"). split; [left | left].
Defined.

(** *** Strings *)

Lemma prefix_spec (a b : string) :
  String.prefix a b = true <-> exists t, b = a +:+ t.
Proof.
  revert b. induction a as [|c a IH]; intros [|c' b]; cbn [String.prefix String.append].
  - split; [intros _; by exists "" | done].
  - split; [intros _; by exists (String c' b) | done].
  - split; [done | intros (t & Ht); discriminate].
  - destruct (Ascii.ascii_dec c c') as [->|Hne].
    + rewrite IH. split; intros (t & Ht); exists t.
      * by rewrite Ht.
      * by injection Ht.
    + split; [done|]. intros (t & Ht). injection Ht as Hc _. congruence.
Qed.

Lemma includes_spec (needle hay : string) :
  includes needle hay = true <-> exists pre post, hay = pre +:+ needle +:+ post.
Proof.
  induction hay as [|c hay IH]; cbn [includes].
  - rewrite orb_false_r, prefix_spec. split.
    + intros (t & Ht). by exists "", t.
    + intros (pre & post & Heq). destruct pre; [by exists post|discriminate].
  - rewrite orb_true_iff, prefix_spec, IH. split.
    + intros [(t & Ht) | (pre & post & Heq)].
      * by exists "", t.
      * exists (String c pre), post. cbn [String.append]. by rewrite Heq.
    + intros (pre & post & Heq). destruct pre as [|c' pre].
      * left. by exists post.
      * right. cbn [String.append] in Heq. injection Heq as _ Heq. by exists pre, post.
Qed.

Lemma string_append_cons (c : Ascii.ascii) (s1 s2 : string) :
  String c s1 +:+ s2 = String c (s1 +:+ s2).
Proof. reflexivity. Qed.

Lemma substring_skip (pre s : string) (m : nat) :
  String.substring (String.length pre) m (pre +:+ s) = String.substring 0 m s.
Proof. induction pre as [|c pre IH]; [reflexivity | exact IH]. Qed.

Lemma substring_whole (s : string) : String.substring 0 (String.length s) s = s.
Proof. induction s as [|c s IH]; [reflexivity | simpl; by rewrite IH]. Qed.

Lemma substring_split (k : nat) :
  forall s, k <= String.length s ->
    s = String.substring 0 k s +:+ String.substring k (String.length s - k) s.
Proof.
  induction k as [|k IH]; intros s Hk.
  - rewrite Nat.sub_0_r, substring_whole. by destruct s.
  - destruct s as [|c s]; simpl in *; [lia|].
    rewrite string_append_cons. f_equal. apply IH. lia.
Qed.

Lemma endsWith_spec (suffix s : string) :
  endsWith suffix s = true <-> exists pre, s = pre +:+ suffix.
Proof.
  unfold endsWith. rewrite andb_true_iff, Nat.leb_le, String.eqb_eq. split.
  - intros [Hle Hsub].
    exists (String.substring 0 (String.length s - String.length suffix) s).
    rewrite <- Hsub at 2.
    rewrite (substring_split (String.length s - String.length suffix) s) at 1 by lia.
    do 2 f_equal. lia.
  - intros (pre & ->). rewrite string_length_append. split; [lia|].
    replace (String.length pre + String.length suffix - String.length suffix)
      with (String.length pre) by lia.
    by rewrite substring_skip, substring_whole.
Qed.

(** *** The management host name *)

(** X8: [getScmDomain] reads the host without any call or event. The name
    it returns is one of the enabled host names, contains [.scm.] and ends
    in [.azurewebsites.net]; it returns nothing exactly when no enabled host
    name has both marks. *)
Theorem getScmDomain_selects (app : Site) (w : World) (s : State) :
  exists r,
    getScmDomain (Some app) w s = (Return r, s)
    /\ (forall h, r = Some h ->
          h ∈ enabledHostNames app
          /\ (exists a b, h = a +:+ ".scm." +:+ b)
          /\ (exists c, h = c +:+ ".azurewebsites.net"))
    /\ (r = None ->
        forall h a b c,
          h ∈ enabledHostNames app -> h = a +:+ ".scm." +:+ b ->
          h <> c +:+ ".azurewebsites.net")
    /\ ((exists h a b c, h ∈ enabledHostNames app /\ h = a +:+ ".scm." +:+ b
                         /\ h = c +:+ ".azurewebsites.net") -> r <> None).
Proof.
  exists (List.find isScmDomain (enabledHostNames app)).
  split; [reflexivity|].
  assert (Hmark : forall h, isScmDomain h = true <->
            (exists a b, h = a +:+ ".scm." +:+ b)
            /\ (exists c, h = c +:+ ".azurewebsites.net")).
  { intros h. unfold isScmDomain. by rewrite andb_true_iff, includes_spec, endsWith_spec. }
  split; [|split].
  - intros h Hfind. apply find_some in Hfind as [Hin Hh].
    apply Hmark in Hh as [Hscm Hend]. split; [by apply list_elem_of_In | done].
  - intros Hnone h a b c Hin Hscm Hend.
    pose proof (find_none _ _ Hnone h (proj1 (list_elem_of_In _ _) Hin)) as Hh.
    assert (isScmDomain h = true) as Htrue by (apply Hmark; eauto).
    congruence.
  - intros (h & a & b & c & Hin & Hscm & Hend) Hnone.
    pose proof (find_none _ _ Hnone h (proj1 (list_elem_of_In _ _) Hin)) as Hh.
    assert (isScmDomain h = true) as Htrue by (apply Hmark; eauto).
    congruence.
Qed.

Lemma getScmDomain_selects_witness :
  exists r,
    getScmDomain (Some Sample.host) Sample.converged initial = (Return r, initial)
    /\ r <> None.
Proof.
  destruct (getScmDomain_selects Sample.host Sample.converged initial)
    as (r & Hrun & _ & _ & Hfound).
  exists r. split; [exact Hrun|]. apply Hfound.
  exists "h.scm.azurewebsites.net", "h", "azurewebsites.net", "h.scm".
  split; [right; left | split; reflexivity].
Defined.

(** *** The direct push *)

Lemma emits_weaken {A} (m : M A) (P Q : Event -> bool) :
  (forall ev, P ev = true -> Q ev = true) -> emits m P -> emits m Q.
Proof.
  intros HPQ Hm w s. destruct (Hm w s) as (evs & Htr & HP). exists evs.
  split; [exact Htr|]. apply forallb_forall. intros ev Hin.
  apply HPQ. by apply (proj1 (forallb_forall P evs) HP).
Qed.

Lemma emits_existsSync (P : Event -> bool) (path : string) :
  P (ExistsSync path) = true -> emits (existsSync path) P.
Proof. intros Hev w s. exists [ExistsSync path]. simpl. by rewrite Hev. Qed.

Lemma polling_leaves_settings (ev : Event) :
  is_polling ev = true -> leaves_settings ev = true.
Proof.
  destruct ev; simpl; try done. intros Hget%String.eqb_eq. by subst method.
Qed.

Lemma uploadDirect_leaves_settings (this : Service) (functionApp : option Site)
    (functionZipFile : string) :
  emits (uploadDirect this functionApp functionZipFile) leaves_settings.
Proof.
  unfold uploadDirect, uploadZippedArtifactToBlobStorage,
    uploadZippedArfifactToFunctionApp, getScmDomain, log.
  apply emits_bind; [repeat emits_step|]. intros archived.
  apply emits_bind.
  - apply emits_settle. apply emits_bind; [repeat emits_step|]. intros scmDomain.
    apply emits_bind; [emits_step|]. intros app.
    apply emits_bind; [emits_step|]. intros _.
    apply emits_bind.
    + destruct (String.eqb functionZipFile ""); [emits_step|by apply emits_existsSync].
    + intros found. destruct (negb found); repeat emits_step.
  - intros pushed. repeat emits_step.
Qed.

(** Both uploads of the direct variant are started. *)
Lemma uploadDirect_starts_both (this : Service) (w : World) (s : State) (app : Site)
    (functionZipFile : string) :
  exists evs,
    trace (uploadDirect this (Some app) functionZipFile w s).2 = trace s ++ evs
    /\ BlobInitialize ∈ evs
    /\ Log ("Deploying zip file to function app: " +:+ site_name app) ∈ evs.
Proof.
  unfold uploadDirect, uploadZippedArtifactToBlobStorage,
    uploadZippedArfifactToFunctionApp, getScmDomain.
  unfold_m.
  destruct (w_blobInitialize w (tick s)) as [[]|?]; simpl;
    [destruct (w_blobCreateContainer w _ _) as [[]|?]; simpl;
       [destruct (w_blobUploadFile w _ _ _ _) as [[]|?]; simpl|]|].
  all: destruct (String.eqb functionZipFile ""); simpl;
         [|destruct (w_existsSync w functionZipFile); simpl;
             [destruct (w_getAccessToken w _); simpl;
                [destruct (w_sendFile w _ _ _ _) as [[]|?]; simpl|]|]].
  all: eexists; split; [rewrite <- ?app_assoc; simpl; reflexivity|].
  all: split; apply list_elem_of_In; simpl; tauto.
Qed.

Lemma uploadFunctions_direct_emits (this : Service) (functionApp : option Site) :
  deployment_external this = false ->
  emits (uploadFunctions this functionApp) leaves_settings.
Proof.
  intros Hdirect. unfold uploadFunctions, log. rewrite Hdirect.
  apply emits_bind; [emits_step|]. intros _.
  apply emits_bind; [emits_step|]. intros _.
  apply emits_bind; [apply uploadDirect_leaves_settings|]. intros _.
  apply emits_bind; [emits_step|]. intros _.
  apply emits_bind.
  { apply (emits_weaken _ is_polling); [apply polling_leaves_settings|].
    apply listFunctions_polling. }
  intros deployedFunctions. apply emits_bind; [emits_step|]. intros app.
  apply (emits_weaken _ is_polling); [apply polling_leaves_settings|].
  apply reportFunctions_polling.
Qed.

(** X9: in the direct-push variant [uploadFunctions] never reads or writes
    the application settings and never syncs the triggers, whatever the
    collaborators answer; and for a host that is not null both uploads are
    started: the archival upload to blob storage and the push to the
    function app, also when the other one fails. *)
Theorem direct_variant_leaves_settings (this : Service) (w : World) (s : State)
    (functionApp : option Site) :
  deployment_external this = false ->
  exists evs,
    trace (uploadFunctions this functionApp w s).2 = trace s ++ evs
    /\ forallb leaves_settings evs = true
    /\ (forall app, functionApp = Some app ->
        BlobInitialize ∈ evs
        /\ Log ("Deploying zip file to function app: " +:+ site_name app) ∈ evs).
Proof.
  intros Hdirect.
  destruct (uploadFunctions_direct_emits this functionApp Hdirect w s)
    as (evs & Htr & Hleaves).
  exists evs. split; [exact Htr|]. split; [exact Hleaves|].
  intros app ->.
  destruct (uploadDirect_starts_both this w
              (record s [Log "Deploying serverless functions..."]) app
              (getFunctionZipFile this)) as (evs1 & Htr1 & Hinit & Hpush).
  destruct (uploadDirect this (Some app) (getFunctionZipFile this) w
              (record s [Log "Deploying serverless functions..."]))
    as [r1 s1] eqn:Hrun1.
  simpl in Htr1.
  assert (Hshape : exists tail,
            trace (uploadFunctions this (Some app) w s).2
            = trace s ++ Log "Deploying serverless functions..." :: evs1 ++ tail).
  { destruct r1 as [[]|e1].
    - destruct (report_polling this (Some app) w s1) as (tail & Htail & _).
      exists tail. rewrite <- app_assoc in Htr1. simpl in Htr1.
      rewrite app_comm_cons, app_assoc, <- Htr1, <- Htail.
      unfold uploadFunctions. rewrite Hdirect.
      cbv beta zeta iota delta [bind ret Guard.null log emit] in *.
      fold (record s [Log "Deploying serverless functions..."]).
      by rewrite Hrun1.
    - exists []. rewrite app_nil_r. rewrite <- app_assoc in Htr1. simpl in Htr1.
      rewrite <- Htr1.
      unfold uploadFunctions. rewrite Hdirect.
      cbv beta zeta iota delta [bind ret Guard.null log emit] in *.
      fold (record s [Log "Deploying serverless functions..."]).
      by rewrite Hrun1. }
  destruct Hshape as (tail & Hshape). rewrite Hshape in Htr.
  apply app_inv_head in Htr. subst evs.
  split; right; apply elem_of_app; by left.
Qed.

Lemma direct_variant_leaves_settings_witness :
  exists evs,
    trace (uploadFunctions Sample2.direct (Some Sample.host) Sample.storageDown initial).2
      = trace initial ++ evs
    /\ forallb leaves_settings evs = true
    /\ (forall app, Some Sample.host = Some app ->
        BlobInitialize ∈ evs
        /\ Log ("Deploying zip file to function app: " +:+ site_name app) ∈ evs).
Proof.
  apply (direct_variant_leaves_settings Sample2.direct Sample.storageDown initial
           (Some Sample.host)).
  reflexivity.
Defined.

(** *** The report of the deployed functions *)



(** X11: the report is silent about every deployed function that is not
    declared by the service or has no HTTP trigger: when no deployed
    function is both, [reportFunctions] succeeds without any event. *)
Theorem report_skips_other_functions (app : Site) (declared : list string)
    (deployedFunctions : list FunctionEnvelope) (w : World) (s : State) :
  (forall f, f ∈ deployedFunctions ->
     fn_name f ∉ declared
     \/ (forall b, b ∈ fn_bindings f -> binding_type b <> "httpTrigger")) ->
  reportFunctions app declared deployedFunctions w s = (Return tt, s).
Proof.
  revert s. induction deployedFunctions as [|g rest IH]; intros s Hskip; [reflexivity|].
  simpl. unfold bind at 1.
  assert (Hrest : forall f, f ∈ rest ->
            fn_name f ∉ declared
            \/ (forall b, b ∈ fn_bindings f -> binding_type b <> "httpTrigger")).
  { intros f Hf. apply Hskip. by right. }
  destruct (Hskip g) as [Hundeclared|Hplain]; [left|..].
  - destruct (array_includes declared (fn_name g)) eqn:Hg.
    + apply array_includes_spec in Hg. contradiction.
    + unfold ret. by apply IH.
  - destruct (array_includes declared (fn_name g)); [|unfold ret; by apply IH].
    unfold getFunctionHttpTriggerConfig. rewrite (find_no_httpTrigger _ Hplain).
    unfold ret. by apply IH.
Qed.

Lemma report_skips_other_functions_witness :
  reportFunctions Sample.host ["a"; "b"]
    [Sample.deployed "a"; Sample.deployed "c"] Sample.converged initial
  = (Return tt, initial).
Proof.
  apply (report_skips_other_functions Sample.host ["a"; "b"]
           [Sample.deployed "a"; Sample.deployed "c"] Sample.converged initial).
  intros f Hf. right. intros b Hb.
  apply elem_of_cons in Hf as [->|Hf]; [by apply elem_of_nil in Hb|].
  apply list_elem_of_singleton in Hf. subst f. by apply elem_of_nil in Hb.
Defined.

(** *** The external-package upload, step by step *)

(** Splitting on the answers of the collaborators, keeping each answer. *)
Ltac split_answers_eqn :=
  repeat match goal with
         | |- context [match ?x with Return _ => _ | Throw _ => _ end] =>
             destruct x eqn:?; simpl
         | |- context [match settings ?d with Some _ => _ | None => _ end] =>
             destruct (settings d); simpl
         | |- context [match ?x with NoData => _ | Listing _ => _ | Document _ => _ end] =>
             destruct x; simpl
         end.

(** A collaborator that always refuses cannot have answered. *)
Ltac refused H :=
  match goal with
  | Heq : _ = Return _ |- _ => rewrite H in Heq; discriminate
  end.

Lemma uploadExternal_blocked (this : Service) (w : World) (s : State)
    (app : Site) (functionZipFile : string) (e0 : Exn) :
  exists r s' evs,
    uploadExternal this (Some app) functionZipFile w s = (r, s')
    /\ trace s' = trace s ++ evs
    /\ ((forall n c b, w_blobGenerateSas w n c b = Throw e0) ->
        (exists e, r = Throw e) /\ forallb leaves_settings evs = true)
    /\ ((forall n g a, w_listApplicationSettings w n g a = Throw e0) ->
        (exists e, r = Throw e)
        /\ forallb (fun ev => negb (is_settings_write ev) && negb (in_stage 3 ev)) evs = true)
    /\ ((forall n u p, w_sendApiRequest w n "PUT" u p = Throw e0) ->
        (exists e, r = Throw e)
        /\ forallb (fun ev => negb (in_stage 3 ev)) evs = true).
Proof.
  unfold uploadExternal, uploadZippedArtifactToBlobStorage, updateFunctionAppSetting,
    propertiesOf, syncTriggers.
  unfold_m. split_answers_eqn.
  all: eexists _, _, _; split; [reflexivity|]; simpl.
  all: split; [rewrite <- ?app_assoc; simpl; reflexivity|].
  all: split; [|split]; intros H; try refused H.
  all: split; [eauto | reflexivity].
Qed.

Lemma uploadFunctions_external_failure (this : Service) (w : World) (s : State)
    (app : Site) (e : Exn) (s1 : State) :
  deployment_external this = true ->
  uploadExternal this (Some app) (getFunctionZipFile this) w
    (record s [Log "Deploying serverless functions..."]) = (Throw e, s1) ->
  uploadFunctions this (Some app) w s = (Throw e, s1).
Proof.
  intros Hexternal Hrun. unfold uploadFunctions. rewrite Hexternal.
  cbv beta zeta iota delta [bind ret Guard.null log emit] in *.
  fold (record s [Log "Deploying serverless functions..."]). by rewrite Hrun.
Qed.

(** X12: in the external-package variant a failed step keeps the later
    steps from being attempted, and [uploadFunctions] fails. When the signed
    URL cannot be generated, the settings are neither read nor written and
    the triggers are not synced; when the settings cannot be read, they are
    not written and the triggers are not synced; when the write of the
    settings is rejected, the triggers are not synced. *)
Theorem external_failure_stops_later_steps (this : Service) (w : World) (s : State)
    (app : Site) (e0 : Exn) :
  deployment_external this = true ->
  (forall n c b, w_blobGenerateSas w n c b = Throw e0)
  \/ (forall n g a, w_listApplicationSettings w n g a = Throw e0)
  \/ (forall n u p, w_sendApiRequest w n "PUT" u p = Throw e0) ->
  exists e evs,
    (uploadFunctions this (Some app) w s).1 = Throw e
    /\ trace (uploadFunctions this (Some app) w s).2 = trace s ++ evs
    /\ forallb (fun ev => negb (in_stage 3 ev)) evs = true
    /\ ((forall n c b, w_blobGenerateSas w n c b = Throw e0) ->
        forallb leaves_settings evs = true)
    /\ ((forall n g a, w_listApplicationSettings w n g a = Throw e0) ->
        forallb (fun ev => negb (is_settings_write ev)) evs = true).
Proof.
  intros Hexternal Hrefused.
  destruct (uploadExternal_blocked this w (record s [Log "Deploying serverless functions..."])
              app (getFunctionZipFile this) e0)
    as (r1 & s1 & evs1 & Hrun1 & Htr1 & Hsas & Hfetch & Hput).
  simpl in Htr1. rewrite <- app_assoc in Htr1. simpl in Htr1.
  assert (Hthrow : exists e, r1 = Throw e).
  { destruct Hrefused as [H|[H|H]];
      [apply (Hsas H) | apply (Hfetch H) | apply (Hput H)]. }
  destruct Hthrow as (e & ->).
  rewrite (uploadFunctions_external_failure this w s app e s1 Hexternal Hrun1). simpl.
  exists e, (Log "Deploying serverless functions..." :: evs1).
  split; [reflexivity|]. split; [exact Htr1|]. split; [|split].
  - simpl. destruct Hrefused as [H|[H|H]].
    + destruct (Hsas H) as [_ Hall]. apply forallb_forall. intros ev Hin.
      pose proof (proj1 (forallb_forall _ _) Hall ev Hin) as Hev.
      unfold leaves_settings in Hev. by apply andb_prop in Hev as [_ ->].
    + destruct (Hfetch H) as [_ Hall]. apply forallb_forall. intros ev Hin.
      pose proof (proj1 (forallb_forall _ _) Hall ev Hin) as Hev.
      by apply andb_prop in Hev as [_ ->].
    + by destruct (Hput H).
  - intros H. simpl. by destruct (Hsas H).
  - intros H. simpl. destruct (Hfetch H) as [_ Hall]. apply forallb_forall. intros ev Hin.
    pose proof (proj1 (forallb_forall _ _) Hall ev Hin) as Hev.
    by apply andb_prop in Hev as [-> _].
Qed.

Lemma external_failure_stops_later_steps_witness :
  exists e evs,
    (uploadFunctions Sample.service (Some Sample.host) Sample2.settingsRefused initial).1
      = Throw e
    /\ trace (uploadFunctions Sample.service (Some Sample.host)
                Sample2.settingsRefused initial).2 = trace initial ++ evs
    /\ forallb (fun ev => negb (in_stage 3 ev)) evs = true.
Proof.
  destruct (external_failure_stops_later_steps Sample.service Sample2.settingsRefused
              initial Sample.host {| kind := TransportFailure; message := "403" |})
    as (e & evs & Hthrow & Htrace & Hsync & _).
  - reflexivity.
  - right. right. reflexivity.
  - exists e, evs. split; [exact Hthrow|]. split; [exact Htrace | exact Hsync].
Defined.

(** The external-package branch when every step up to the sync is answered. *)
Lemma uploadExternal_answered (this : Service) (w : World) (s : State) (app : Site)
    (functionZipFile sasUrl : string) (current : gmap string string)
    (code : Z) (returned : option Properties) :
  (forall n, w_blobInitialize w n = Return tt) ->
  (forall n c, w_blobCreateContainer w n c = Return tt) ->
  (forall n p c b, w_blobUploadFile w n p c b = Return tt) ->
  (forall n c b, w_blobGenerateSas w n c b = Return sasUrl) ->
  (forall n g a, w_listApplicationSettings w n g a = Return {| settings := Some current |}) ->
  (forall n u p,
     w_sendApiRequest w n "PUT" u p = Return {| status := code; data := Document returned |}) ->
  exists r s',
    uploadExternal this (Some app) functionZipFile w s = (r, s')
    /\ trace s' = trace s ++
         [Log "Updating function app setting to run from external package...";
          BlobInitialize;
          BlobCreateContainer (deployment_container this);
          BlobUploadFile functionZipFile (deployment_container this) (artifactName this);
          BlobGenerateSas (deployment_container this) (artifactName this);
          ListApplicationSettings (resourceGroup this) (site_name app);
          ApiRequest "PUT" (appSettingsUrl this app)
            (PropertiesPayload
               (Some (SettingsProperties
                        (<[runFromPackageSetting this := sasUrl]> current))));
          Log "Syncing function triggers";
          ApiRequest "POST" (syncTriggersUrl this app) (PropertiesPayload returned)].
Proof.
  intros Hinit Hcreate Hupload Hsas Hfetch Hput.
  unfold uploadExternal, uploadZippedArtifactToBlobStorage, updateFunctionAppSetting,
    propertiesOf, syncTriggers.
  unfold_m. rewrite Hinit, Hcreate, Hupload, Hsas, Hfetch. simpl.
  rewrite Hput. simpl.
  destruct (w_sendApiRequest w _ "POST" _ _); simpl.
  all: eexists _, _; split; [reflexivity|]; simpl.
  all: rewrite <- ?app_assoc; simpl; reflexivity.
Qed.

(** X13: in the external-package variant, when the storage steps, the
    signed URL and the settings calls are answered, the written settings are
    the fetched ones with the run-from-package key set to the signed URL,
    and the trigger sync carries the properties that the host returned for
    that write; what follows the sync is the listing poll and the report. *)
Theorem external_upload_data_flow (this : Service) (w : World) (s : State) (app : Site)
    (sasUrl : string) (current : gmap string string)
    (code : Z) (returned : option Properties) :
  deployment_external this = true ->
  (forall n, w_blobInitialize w n = Return tt) ->
  (forall n c, w_blobCreateContainer w n c = Return tt) ->
  (forall n p c b, w_blobUploadFile w n p c b = Return tt) ->
  (forall n c b, w_blobGenerateSas w n c b = Return sasUrl) ->
  (forall n g a, w_listApplicationSettings w n g a = Return {| settings := Some current |}) ->
  (forall n u p,
     w_sendApiRequest w n "PUT" u p = Return {| status := code; data := Document returned |}) ->
  exists tail,
    trace (uploadFunctions this (Some app) w s).2 = trace s ++
      [Log "Deploying serverless functions...";
       Log "Updating function app setting to run from external package...";
       BlobInitialize;
       BlobCreateContainer (deployment_container this);
       BlobUploadFile (getFunctionZipFile this) (deployment_container this)
         (artifactName this);
       BlobGenerateSas (deployment_container this) (artifactName this);
       ListApplicationSettings (resourceGroup this) (site_name app);
       ApiRequest "PUT" (appSettingsUrl this app)
         (PropertiesPayload
            (Some (SettingsProperties
                     (<[runFromPackageSetting this := sasUrl]> current))));
       Log "Syncing function triggers";
       ApiRequest "POST" (syncTriggersUrl this app) (PropertiesPayload returned)]
      ++ tail
    /\ forallb is_polling tail = true.
Proof.
  intros Hexternal Hinit Hcreate Hupload Hsas Hfetch Hput.
  destruct (uploadExternal_answered this w
              (record s [Log "Deploying serverless functions..."]) app
              (getFunctionZipFile this) sasUrl current code returned
              Hinit Hcreate Hupload Hsas Hfetch Hput) as (r1 & s1 & Hrun1 & Htr1).
  simpl in Htr1. rewrite <- app_assoc in Htr1. simpl in Htr1.
  destruct r1 as [[]|e1].
  - destruct (report_polling this (Some app) w s1) as (tail & Htail & Hpoll).
    exists tail. split; [|exact Hpoll].
    rewrite app_assoc, <- Htr1, <- Htail. clear Htail.
    unfold uploadFunctions. rewrite Hexternal.
    cbv beta zeta iota delta [bind ret Guard.null log emit] in *.
    fold (record s [Log "Deploying serverless functions..."]).
    by rewrite Hrun1.
  - exists []. split; [|reflexivity]. rewrite app_nil_r, <- Htr1.
    by rewrite (uploadFunctions_external_failure this w s app e1 s1 Hexternal Hrun1).
Qed.

Lemma external_upload_data_flow_witness :
  exists tail,
    trace (uploadFunctions Sample.service (Some Sample.host) Sample2.settled initial).2 =
      trace initial ++
      [Log "Deploying serverless functions...";
       Log "Updating function app setting to run from external package...";
       BlobInitialize;
       BlobCreateContainer "deployment-artifacts";
       BlobUploadFile (getFunctionZipFile Sample.service) "deployment-artifacts" "svc.zip";
       BlobGenerateSas "deployment-artifacts" "svc.zip";
       ListApplicationSettings "rg" "h";
       ApiRequest "PUT" (appSettingsUrl Sample.service Sample.host)
         (PropertiesPayload
            (Some (SettingsProperties
                     (<["WEBSITE_RUN_FROM_PACKAGE" := "https://storage/svc.zip?sas"]>
                        {[ "FUNCTIONS_WORKER_RUNTIME" := "node" ]}))));
       Log "Syncing function triggers";
       ApiRequest "POST" (syncTriggersUrl Sample.service Sample.host)
         (PropertiesPayload (Some (SettingsProperties {[ "k" := "v" ]})))]
      ++ tail
    /\ forallb is_polling tail = true.
Proof.
  apply (external_upload_data_flow Sample.service Sample2.settled initial Sample.host
           "https://storage/svc.zip?sas" {[ "FUNCTIONS_WORKER_RUNTIME" := "node" ]}
           200 (Some (SettingsProperties {[ "k" := "v" ]}))).
  all: intros; reflexivity.
Defined.

(** *** Uploading a directory tree *)

Lemma removeFirst_unfold (pattern s : string) :
  removeFirst pattern s =
    if String.prefix pattern s then string_drop (String.length pattern) s
    else match s with
         | EmptyString => EmptyString
         | String c rest => String c (removeFirst pattern rest)
         end.
Proof. by destruct s. Qed.

Lemma string_drop_append (pre s : string) :
  string_drop (String.length pre) (pre +:+ s) = s.
Proof. induction pre as [|c pre IH]; [by destruct s | exact IH]. Qed.

(** A path under the root keeps what follows the root. *)
Lemma removeFirst_root (root rest : string) : removeFirst root (root +:+ rest) = rest.
Proof.
  rewrite removeFirst_unfold.
  rewrite (proj2 (prefix_spec root (root +:+ rest))) by eauto.
  apply string_drop_append.
Qed.

(** A path in which the root does not occur is kept whole. *)
Lemma removeFirst_absent (root s : string) :
  includes root s = false -> removeFirst root s = s.
Proof.
  induction s as [|c s IH]; cbn [includes]; intros Hno.
  - rewrite orb_false_r in Hno. rewrite removeFirst_unfold. by rewrite Hno.
  - apply orb_false_elim in Hno as [Hpre Hrest].
    rewrite removeFirst_unfold, Hpre. f_equal. by apply IH.
Qed.

Lemma uploads_app (evs1 evs2 : list Event) :
  uploads (evs1 ++ evs2) = uploads evs1 ++ uploads evs2.
Proof.
  induction evs1 as [|ev rest IH]; [reflexivity|].
  destruct ev; simpl; by rewrite ?IH.
Qed.

(** Every file of the list is uploaded, in order, whatever the answers. *)
Lemma uploadAll_trace (root container : string) (w : World) (files : list string) :
  forall s, exists tasks s',
    uploadAll root container files w s = (Return tasks, s')
    /\ trace s' =
       trace s ++ map (fun f => BlobUploadFile f container (removeFirst root f)) files
    /\ (forall e, Throw e ∈ tasks -> exists n f, w_blobUploadFile w n f container
                                               (removeFirst root f) = Throw e)
    /\ ((forall n f b, w_blobUploadFile w n f container b = Return tt) ->
        Forall (fun task => task = Return tt) tasks).
Proof.
  induction files as [|f rest IH]; intros s; simpl.
  - exists [], s. rewrite app_nil_r. split; [reflexivity|]. split; [reflexivity|].
    split; [|constructor]. intros e He. by apply elem_of_nil in He.
  - unfold bind at 1, settle at 1, remote at 1.
    unfold bind at 1.
    match goal with |- context [uploadAll root container rest w ?s1] =>
      destruct (IH s1) as (tasks & s' & -> & Htr & Hthrown & Hall) end.
    eexists _, s'. split; [reflexivity|]. simpl in Htr.
    split; [by rewrite Htr, <- app_assoc|]. split.
    + intros e [He|He]%elem_of_cons; [eauto | by apply Hthrown].
    + intros Hok. constructor; [apply Hok | by apply Hall].
Qed.

Lemma promise_all_fulfilled (tasks : list (Outcome unit)) (w : World) (s : State) :
  Forall (fun task => task = Return tt) tasks ->
  exists vs, promise_all tasks w s = (Return vs, s).
Proof.
  induction 1 as [|task rest -> _ IH]; simpl; [by exists []|].
  destruct IH as (vs & Hvs). unfold bind. rewrite Hvs. by exists (tt :: vs).
Qed.

(** The common body of [uploadStaticSite] and [uploadUserConfig]. *)
Lemma upload_tree_trace (root container pattern : string)
    (glob : string -> Outcome (list string)) (w : World) (s : State) (rels : list string) :
  glob pattern = Return (map (String.append root) rels) ->
  w_blobInitialize w (tick s) = Return tt ->
  w_blobCreateContainer w (S (tick s)) container = Return tt ->
  let m :=
    (do _ <- remote BlobInitialize w_blobInitialize;
     do _ <- remote (BlobCreateContainer container)
               (fun w n => w_blobCreateContainer w n container);
     do files <- getFileList glob pattern;
     do pArr <- uploadAll root container files;
     do _ <- promise_all pArr;
     ret tt) in
  uploads (drop (length (trace s)) (trace (m w s).2))
    = map (fun rel => (root +:+ rel, container, rel)) rels
  /\ ((forall n f b, w_blobUploadFile w n f container b = Return tt) ->
      (m w s).1 = Return tt).
Proof.
  intros Hglob Hinit Hcreate m. subst m.
  unfold getFileList. unfold_m. rewrite Hinit. simpl. rewrite Hcreate. simpl.
  rewrite Hglob. simpl.
  match goal with |- context [uploadAll root container ?fs w ?s1] =>
    destruct (uploadAll_trace root container w fs s1)
      as (tasks & s' & -> & Htr & _ & Hall) end.
  simpl in Htr. pose proof (promise_all_state tasks w s') as Hstate.
  split.
  - destruct (promise_all tasks w s') as [[vs|e] s2]; simpl in *; subst s2.
    all: rewrite Htr, <- !app_assoc, drop_app_length; simpl.
    all: clear; induction rels as [|rel rels IH]; simpl; [reflexivity|].
    all: by rewrite removeFirst_root, IH.
  - intros Hok. destruct (promise_all_fulfilled tasks w s' (Hall Hok)) as (vs & ->).
    reflexivity.
Qed.

(** X14: [uploadStaticSite], once blob storage is initialised and the
    [$web] container is there, uploads every file that [glob] found under
    [./build/], in order and whatever the individual answers, each under its
    path relative to [./build/]; when every upload is answered it succeeds. *)
Theorem uploadStaticSite_mirrors_build (glob : string -> Outcome (list string))
    (w : World) (s : State) (rels : list string) :
  glob "./build/**" = Return (map (String.append "./build/") rels) ->
  w_blobInitialize w (tick s) = Return tt ->
  w_blobCreateContainer w (S (tick s)) "$web" = Return tt ->
  uploads (drop (length (trace s)) (trace (uploadStaticSite glob w s).2))
    = map (fun rel => ("./build/" +:+ rel, "$web", rel)) rels
  /\ ((forall n f b, w_blobUploadFile w n f "$web" b = Return tt) ->
      (uploadStaticSite glob w s).1 = Return tt).
Proof. apply (upload_tree_trace "./build/" "$web" "./build/**"). Qed.

Lemma uploadStaticSite_mirrors_build_witness :
  uploads (drop (length (trace initial))
             (trace (uploadStaticSite Sample2.glob Sample.converged initial).2))
    = [("./build/index.html", "$web", "index.html");
       ("./build/static/js/main.js", "$web", "static/js/main.js")]
  /\ (uploadStaticSite Sample2.glob Sample.converged initial).1 = Return tt.
Proof.
  destruct (uploadStaticSite_mirrors_build Sample2.glob Sample.converged initial
              ["index.html"; "static/js/main.js"]) as [Huploads Hok].
  - reflexivity.
  - reflexivity.
  - reflexivity.
  - split; [exact Huploads | apply Hok; reflexivity].
Defined.

(** X15: [uploadUserConfig] does the same for the files under
    [./user_config/] and the [user-config] container. *)
Theorem uploadUserConfig_mirrors_tree (glob : string -> Outcome (list string))
    (w : World) (s : State) (rels : list string) :
  glob "./user_config/**" = Return (map (String.append "./user_config/") rels) ->
  w_blobInitialize w (tick s) = Return tt ->
  w_blobCreateContainer w (S (tick s)) "user-config" = Return tt ->
  uploads (drop (length (trace s)) (trace (uploadUserConfig glob w s).2))
    = map (fun rel => ("./user_config/" +:+ rel, "user-config", rel)) rels
  /\ ((forall n f b, w_blobUploadFile w n f "user-config" b = Return tt) ->
      (uploadUserConfig glob w s).1 = Return tt).
Proof. apply (upload_tree_trace "./user_config/" "user-config" "./user_config/**"). Qed.

Lemma uploadUserConfig_mirrors_tree_witness :
  uploads (drop (length (trace initial))
             (trace (uploadUserConfig Sample2.glob Sample.converged initial).2))
    = [("./user_config/settings.json", "user-config", "settings.json")]
  /\ (uploadUserConfig Sample2.glob Sample.converged initial).1 = Return tt.
Proof.
  destruct (uploadUserConfig_mirrors_tree Sample2.glob Sample.converged initial
              ["settings.json"]) as [Huploads Hok].
  - reflexivity.
  - reflexivity.
  - reflexivity.
  - split; [exact Huploads | apply Hok; reflexivity].
Defined.

(** X16: neither [uploadStaticSite] nor [uploadUserConfig] uploads a file
    when blob storage cannot be initialised, when the container cannot be
    created or when [glob] fails; the call fails with that error. *)
Theorem tree_upload_needs_preparation (glob : string -> Outcome (list string))
    (w : World) (s : State) (e : Exn) (container pattern : string) :
  w_blobInitialize w (tick s) = Throw e
  \/ (w_blobInitialize w (tick s) = Return tt
      /\ w_blobCreateContainer w (S (tick s)) container = Throw e)
  \/ (w_blobInitialize w (tick s) = Return tt
      /\ w_blobCreateContainer w (S (tick s)) container = Return tt
      /\ glob pattern = Throw e) ->
  (container = "$web" -> pattern = "./build/**" ->
   (uploadStaticSite glob w s).1 = Throw e
   /\ uploads (drop (length (trace s)) (trace (uploadStaticSite glob w s).2)) = [])
  /\ (container = "user-config" -> pattern = "./user_config/**" ->
      (uploadUserConfig glob w s).1 = Throw e
      /\ uploads (drop (length (trace s)) (trace (uploadUserConfig glob w s).2)) = []).
Proof.
  intros Hfail. split; intros -> ->.
  all: unfold uploadStaticSite, uploadUserConfig, getFileList; unfold_m.
  all: destruct Hfail as [Hinit|[[Hinit Hcreate]|(Hinit & Hcreate & Hglob)]].
  all: rewrite Hinit; simpl; rewrite ?Hcreate; simpl; rewrite ?Hglob; simpl.
  all: split; [reflexivity|].
  all: rewrite <- ?app_assoc, drop_app_length; reflexivity.
Qed.

Lemma tree_upload_needs_preparation_witness :
  (uploadStaticSite Sample2.globError Sample.converged initial).1
    = Throw {| kind := RuntimeFault; message := "EACCES" |}
  /\ uploads (drop (length (trace initial))
                (trace (uploadStaticSite Sample2.globError Sample.converged initial).2)) = [].
Proof.
  destruct (tree_upload_needs_preparation Sample2.globError Sample.converged initial
              {| kind := RuntimeFault; message := "EACCES" |} "$web" "./build/**")
    as [Hstatic _].
  - right. right. split; [reflexivity|]. split; reflexivity.
  - apply Hstatic; reflexivity.
Defined.

(** *** The keys of the function app *)

Lemma removeQuotes_clean (s : string) : occurs quote (removeQuotes s) = false.
Proof.
  induction s as [|c s IH]; [reflexivity|]. simpl.
  destruct (Ascii.eqb c quote) eqn:Hc; [exact IH|]. simpl. by rewrite Hc, IH.
Qed.

Lemma removeQuotes_id (s : string) : occurs quote s = false -> removeQuotes s = s.
Proof.
  induction s as [|c s IH]; [reflexivity|]. simpl.
  intros [Hc Hs]%orb_false_elim. rewrite Hc. f_equal. by apply IH.
Qed.

Lemma removeQuotes_append (s1 s2 : string) :
  removeQuotes (s1 +:+ s2) = removeQuotes s1 +:+ removeQuotes s2.
Proof.
  induction s1 as [|c s1 IH]; [reflexivity|].
  rewrite string_append_cons. simpl. destruct (Ascii.eqb c quote); [exact IH|].
  rewrite string_append_cons. by rewrite IH.
Qed.

Lemma string_append_empty_r (s : string) : s +:+ "" = s.
Proof. induction s as [|c s IH]; [reflexivity|]. rewrite string_append_cons. by rewrite IH. Qed.

(** X17: [getAuthKey] asks the admin-token endpoint once and returns the
    body without its double quotes: the token holds no double quote, a body
    without quotes is returned as it is, and a body that is the token in
    double quotes gives the token. *)
Theorem getAuthKey_unwraps_token (this : Service) (endpoints : KeyEndpoints)
    (w : World) (s : State) (app : Site) (body : string) :
  adminToken endpoints (tick s) (adminTokenUrl this app) = Return body ->
  exists token,
    getAuthKey this endpoints (Some app) w s =
      (Return token,
       {| tick := S (tick s);
          retries := retries s;
          trace := trace s ++ [ApiRequest "GET" (adminTokenUrl this app) NoPayload] |})
    /\ occurs quote token = false
    /\ (occurs quote body = false -> token = body)
    /\ (forall inner,
          occurs quote inner = false ->
          body = String quote (inner +:+ String quote EmptyString) ->
          token = inner).
Proof.
  intros Hanswer. exists (removeQuotes body). split; [|split; [|split]].
  - unfold getAuthKey. unfold_m. by rewrite Hanswer.
  - apply removeQuotes_clean.
  - apply removeQuotes_id.
  - intros inner Hinner ->. simpl. unfold quote. simpl.
    rewrite removeQuotes_append. simpl. unfold quote. simpl.
    by rewrite string_append_empty_r, removeQuotes_id.
Qed.

Lemma getAuthKey_unwraps_token_witness :
  exists token,
    getAuthKey Sample.service Sample2.endpoints (Some Sample.host) Sample.converged initial =
      (Return token,
       {| tick := 1; retries := 0;
          trace := [ApiRequest "GET" (adminTokenUrl Sample.service Sample.host) NoPayload] |})
    /\ token = "eyJ0eXAi".
Proof.
  destruct (getAuthKey_unwraps_token Sample.service Sample2.endpoints Sample.converged
              initial Sample.host
              (String quote ("eyJ0eXAi" +:+ String quote EmptyString)))
    as (token & Hrun & _ & _ & Hinner).
  - reflexivity.
  - exists token. split; [exact Hrun|]. apply Hinner; reflexivity.
Defined.

(** X18: [getMasterKey] asks for the admin token before it asks for the
    master key and sends that token as bearer. With a host given it never
    fetches the host; when the token cannot be had, the key is not asked
    for. Without a host it fetches the host first, and when that answers
    that there is none, it fails with a runtime fault without any request
    to a key endpoint. *)
Theorem getMasterKey_order (this : Service) (endpoints : KeyEndpoints)
    (w : World) (s : State) :
  (forall app body,
     adminToken endpoints (tick s) (adminTokenUrl this app) = Return body ->
     getMasterKey this endpoints (Some app) w s =
       (systemKey endpoints (S (tick s)) (keyUrl app) ("Bearer " +:+ removeQuotes body),
        {| tick := S (S (tick s));
           retries := retries s;
           trace := trace s ++ [ApiRequest "GET" (adminTokenUrl this app) NoPayload;
                                ApiRequest "GET" (keyUrl app) NoPayload] |}))
  /\ (forall app e,
        adminToken endpoints (tick s) (adminTokenUrl this app) = Throw e ->
        getMasterKey this endpoints (Some app) w s =
          (Throw e,
           {| tick := S (tick s);
              retries := retries s;
              trace := trace s ++ [ApiRequest "GET" (adminTokenUrl this app) NoPayload] |}))
  /\ (forall s1,
        get this w s = (Return None, s1) ->
        exists e, getMasterKey this endpoints None w s = (Throw e, s1)
                  /\ kind e = RuntimeFault)
  /\ (forall response s1,
        get this w s = (Return (Some response), s1) ->
        getMasterKey this endpoints None w s =
          getMasterKey this endpoints (Some (site response)) w s1).
Proof.
  split; [|split; [|split]].
  - intros app body Hanswer. unfold getMasterKey, getAuthKey. unfold_m.
    rewrite Hanswer. simpl. by rewrite <- app_assoc.
  - intros app e Hanswer. unfold getMasterKey, getAuthKey. unfold_m.
    by rewrite Hanswer.
  - intros s1 Hget. unfold getMasterKey, getAuthKey. unfold_only_m.
    rewrite Hget. simpl. eauto.
  - intros response s1 Hget. unfold getMasterKey, getAuthKey. unfold_only_m.
    rewrite Hget. reflexivity.
Qed.

Lemma getMasterKey_order_witness :
  (getMasterKey Sample.service Sample2.endpoints (Some Sample.host)
     Sample.converged initial).1 = Return (Some "master-key")
  /\ (getMasterKey Sample.service Sample2.tokenDown (Some Sample.host)
        Sample.converged initial).1
     = Throw {| kind := TransportFailure; message := "401" |}
  /\ exists e,
       (getMasterKey Sample.service Sample2.endpoints None Sample.unprovisioned initial).1
         = Throw e
       /\ kind e = RuntimeFault.
Proof.
  destruct (getMasterKey_order Sample.service Sample2.endpoints Sample.converged initial)
    as (Hkey & _ & _ & _).
  destruct (getMasterKey_order Sample.service Sample2.tokenDown Sample.converged initial)
    as (_ & Hdown & _ & _).
  destruct (getMasterKey_order Sample.service Sample2.endpoints Sample.unprovisioned initial)
    as (_ & _ & Hnone & _).
  split; [|split].
  - rewrite (Hkey Sample.host (String quote ("eyJ0eXAi" +:+ String quote EmptyString)));
      reflexivity.
  - rewrite (Hdown Sample.host {| kind := TransportFailure; message := "401" |});
      reflexivity.
  - destruct (Hnone (get Sample.service Sample.unprovisioned initial).2) as (e & Hrun & Hkind).
    + reflexivity.
    + exists e. by rewrite Hrun.
Defined.
